(** * Gesture-driven visual effect layer

    A shallow embedding of the detection loop of [App.tsx] and of the three
    particle simulations of [components/Visualizer.tsx], together with the
    properties of the hand-signal processor, the mode controller and the
    jellyfish, snow and rain simulations.

    Modelling conventions.
    - A JavaScript [number] is an exact rational ([Q]); rounding of IEEE
      doubles (and of the [Float32Array] holding the snow ground) is outside
      the model.  [Date.now()], canvas dimensions and array indices are
      integers ([Z], [nat]).
    - The transcendental builtins ([Math.sqrt], [Math.sin], [Math.cos],
      [Math.PI]) and the stream of values returned by [Math.random()] are the
      fields of the class [JSRuntime].  A simulation step threads the position
      in the random stream, so draws happen in the order of the source.
    - Reading [a[i]] out of range gives [undefined]; a property access on it
      throws a [TypeError], which is [None] in the option monad.
    - Canvas drawing is output only and is left out, except that the random
      draws made while drawing are consumed.
    - A division by zero is 0 in [Q] and [Infinity] or [NaN] in JavaScript.
      The divisors of the model are the five key points of the centroid, the
      brush size 50 and the radius of a mound, which is at least 2 for the
      flakes that [createSnowflake] makes; the properties of the mound are
      stated for such flakes. *)

From Stdlib Require Import ZArith QArith Qround Qminmax Qabs Lqa Lia List Bool.
From stdpp Require Import base list.
Import ListNotations.
Open Scope Q_scope.

(** ** Numbers *)

Definition Qltb (a b : Q) : bool := negb (Qle_bool b a).
Definition Qgtb (a b : Q) : bool := Qltb b a.
Definition Qgeb (a b : Q) : bool := Qle_bool b a.

Infix "<?" := Qltb (at level 70, no associativity) : Q_scope.
Infix ">?" := Qgtb (at level 70, no associativity) : Q_scope.
Infix "<=?" := Qle_bool (at level 70, no associativity) : Q_scope.
Infix ">=?" := Qgeb (at level 70, no associativity) : Q_scope.

(** [Math.floor], as an integer and as a number again. *)
Definition Math_floor (a : Q) : Z := Qfloor a.
Definition num (n : Z) : Q := inject_Z n.

Class JSRuntime := {
  Math_sqrt : Q -> Q;
  Math_sin : Q -> Q;
  Math_cos : Q -> Q;
  Math_PI : Q;
  Math_random : nat -> Q
}.

(** [Math.random()] returns a value in the half-open unit interval. *)
Definition unit_random `{JSRuntime} : Prop :=
  forall n : nat, 0 <= Math_random n /\ Math_random n < 1.

(** ** types.ts *)

Inductive AppMode := JELLYFISH | SNOW | RAIN.

Definition AppMode_eqb (a b : AppMode) : bool :=
  match a, b with
  | JELLYFISH, JELLYFISH | SNOW, SNOW | RAIN, RAIN => true
  | _, _ => false
  end.

Module Landmark.
Record t := mk { x : Q; y : Q; z : Q }.
End Landmark.

Module HandData.
Record t := mk {
  x : Q;
  y : Q;
  isPinching : bool;
  pinchDistance : Q;
  isPresent : bool;
  landmarks : option (list Landmark.t)
}.
End HandData.

(** ** constants.ts *)

Definition TABS : list AppMode := [JELLYFISH; SNOW; RAIN].

(** ** App.tsx: the detection loop *)

Record App := mkApp {
  mode : AppMode;
  handData : HandData.t;
  hoveredTab : option AppMode;
  lastVideoTimeRef : Q;
  lastSwitchTimeRef : Z
}.

(** The initial values of [useState] and [useRef]. *)
Definition initialApp : App :=
  {| mode := JELLYFISH;
     handData := HandData.mk 0.5 0.5 false 0 false None;
     hoveredTab := None;
     lastVideoTimeRef := -1;
     lastSwitchTimeRef := 0%Z |}.

(** The updater passed to [setMode] on an accepted OK gesture. *)
Definition nextMode (prevMode : AppMode) : AppMode :=
  match prevMode with
  | JELLYFISH => SNOW
  | SNOW => RAIN
  | RAIN => JELLYFISH
  end.

(** What one animation frame of the detection loop sees: the video element,
    the landmark lists returned by [detectForVideo], and [Date.now()]. *)
Record Video := mkVideo { readyState : Z; currentTime : Q }.

Record Frame := mkFrame {
  video : option Video;
  detections_landmarks : option (list (list Landmark.t));
  Date_now : Z
}.

Definition handleTabHover (data : HandData.t) : option AppMode :=
  if (HandData.y data <? 0.20) && HandData.isPresent data then
    let tabWidth := 1 / 3 in
    if HandData.x data <? tabWidth then TABS !! 0%nat
    else if HandData.x data <? tabWidth * 2 then TABS !! 1%nat
    else TABS !! 2%nat
  else None.

Section Detection.
Context `{JSRuntime}.

(** 1. Calculate Centroid *)
Definition keyPoints (landmarks : list Landmark.t) : option (list Landmark.t) :=
  mapM (fun i : nat => landmarks !! i) [0; 5; 9; 13; 17]%nat.

Definition sumX (kp : list Landmark.t) : Q :=
  fold_left (fun s p => s + Landmark.x p) kp 0.
Definition sumY (kp : list Landmark.t) : Q :=
  fold_left (fun s p => s + Landmark.y p) kp 0.

Definition centroidX (kp : list Landmark.t) : Q :=
  1 - sumX kp / num (Z.of_nat (length kp)).
Definition centroidY (kp : list Landmark.t) : Q :=
  sumY kp / num (Z.of_nat (length kp)).

(** 3. Pinch Detection (Thumb + Index) *)
Definition pinchDistance (indexTip thumbTip : Landmark.t) : Q :=
  let pinchDx := Landmark.x indexTip - Landmark.x thumbTip in
  let pinchDy := Landmark.y indexTip - Landmark.y thumbTip in
  Math_sqrt (pinchDx * pinchDx + pinchDy * pinchDy).

Definition isPinching (indexTip thumbTip : Landmark.t) : bool :=
  pinchDistance indexTip thumbTip <? 0.06.

(** 4. OK Sign Detection (Switch Mode): the distance of a fingertip from
    the wrist, [Math.sqrt(Math.pow(..., 2) + Math.pow(..., 2))]. *)
Definition tipDist (tip wrist : Landmark.t) : Q :=
  Math_sqrt ((Landmark.x tip - Landmark.x wrist) ^ 2
             + (Landmark.y tip - Landmark.y wrist) ^ 2).

Definition isOkGesture (wrist thumbTip indexTip middleTip ringTip pinkyTip : Landmark.t)
  : bool :=
  let middleDist := tipDist middleTip wrist in
  let ringDist := tipDist ringTip wrist in
  let pinkyDist := tipDist pinkyTip wrist in
  isPinching indexTip thumbTip
  && (middleDist >? 0.25) && (ringDist >? 0.25) && (pinkyDist >? 0.2).

(** The branch of [loop] taken when a hand is detected ([landmarks] is
    [detections.landmarks[0]]). *)
Definition trackHand (app : App) (now : Z) (landmarks : list Landmark.t)
  : option App :=
  kp ← keyPoints landmarks;
  wrist ← landmarks !! 0%nat;
  thumbTip ← landmarks !! 4%nat;
  indexTip ← landmarks !! 8%nat;
  middleTip ← landmarks !! 12%nat;
  ringTip ← landmarks !! 16%nat;
  pinkyTip ← landmarks !! 20%nat;
  let switch :=
    isOkGesture wrist thumbTip indexTip middleTip ringTip pinkyTip
    && (now - lastSwitchTimeRef app >? 1500)%Z in
  let newHandData :=
    {| HandData.x := centroidX kp;
       HandData.y := centroidY kp;
       HandData.isPinching := isPinching indexTip thumbTip;
       HandData.pinchDistance := pinchDistance indexTip thumbTip;
       HandData.isPresent := true;
       HandData.landmarks := Some landmarks |} in
  Some {| mode := if switch then nextMode (mode app) else mode app;
          handData := newHandData;
          hoveredTab := handleTabHover newHandData;
          lastVideoTimeRef := lastVideoTimeRef app;
          lastSwitchTimeRef :=
            if switch then now else lastSwitchTimeRef app |}.

(** The branch taken when no hand is detected. *)
Definition loseHand (app : App) : App :=
  let prev := handData app in
  {| mode := mode app;
     handData :=
       {| HandData.x := HandData.x prev;
          HandData.y := HandData.y prev;
          HandData.isPinching := HandData.isPinching prev;
          HandData.pinchDistance := HandData.pinchDistance prev;
          HandData.isPresent := false;
          HandData.landmarks := None |};
     hoveredTab := None;
     lastVideoTimeRef := lastVideoTimeRef app;
     lastSwitchTimeRef := lastSwitchTimeRef app |}.

Definition setLastVideoTime (app : App) (t : Q) : App :=
  {| mode := mode app;
     handData := handData app;
     hoveredTab := hoveredTab app;
     lastVideoTimeRef := t;
     lastSwitchTimeRef := lastSwitchTimeRef app |}.

(** One run of [loop] inside [startDetectionLoop]. *)
Definition loop (app : App) (fr : Frame) : option App :=
  match video fr with
  | Some v =>
      if (readyState v =? 4)%Z then
        if negb (Qeq_bool (currentTime v) (lastVideoTimeRef app)) then
          let app := setLastVideoTime app (currentTime v) in
          match detections_landmarks fr with
          | Some (landmarks :: _) => trackHand app (Date_now fr) landmarks
          | _ => Some (loseHand app)
          end
        else Some app
      else Some app
  | None => Some app
  end.

(** The explicit selection of a tab: [onTabSelect={setMode}]. *)
Definition onTabSelect (app : App) (m : AppMode) : App :=
  {| mode := m;
     handData := handData app;
     hoveredTab := hoveredTab app;
     lastVideoTimeRef := lastVideoTimeRef app;
     lastSwitchTimeRef := lastSwitchTimeRef app |}.

End Detection.

(** ** The random source and loops *)

(** A computation that calls [Math.random()]: it is given the position in the
    stream of random values and returns the position after its last draw. *)
Definition Rng (A : Type) : Type := nat -> A * nat.

Definition ret {A} (a : A) : Rng A := fun n => (a, n).

Definition bind {A B} (m : Rng A) (k : A -> Rng B) : Rng B :=
  fun n => let (a, n') := m n in k a n'.

Notation "'let*' x := m 'in' k" := (bind m (fun x => k))
  (at level 10, x name, m at level 100, k at level 200).
Definition seq_ {A B} (m : Rng A) (k : Rng B) : Rng B := bind m (fun _ => k).

Definition random `{JSRuntime} : Rng Q := fun n => (Math_random n, S n).

(** [arr.forEach(p => ...)] with a body that mutates [p] and draws. *)
Fixpoint forEachM {A} (body : A -> Rng A) (arr : list A) : Rng (list A) :=
  match arr with
  | [] => ret []
  | p :: rest => let* p' := body p in let* rest' := forEachM body rest in ret (p' :: rest')
  end.

(** [for (let k = 0; k < n; k++) s = body(s)]. *)
Fixpoint repeatM {S} (n : nat) (body : S -> Rng S) (s : S) : Rng S :=
  match n with
  | O => ret s
  | S n' => let* s' := body s in repeatM n' body s'
  end.

(** [for (const a of l) s = body(a, s)], for the counting loops
    [for (let i = 0; i < n; i++)] with [l] the indices [seq 0 n]. *)
Fixpoint foldM {A S} (body : A -> S -> Rng S) (l : list A) (s : S) : Rng S :=
  match l with
  | [] => ret s
  | a :: l' => let* s' := body a s in foldM body l' s'
  end.

(** [for (let i = n - 1; i >= 0; i--) s = body(i, s)]: the index runs
    downwards, so that [splice(i, 1)] leaves the indices still to come in
    place. *)
Fixpoint for_down {S} (n : nat) (body : nat -> S -> S) (s : S) : S :=
  match n with
  | O => s
  | S i => for_down i body (body i s)
  end.

Fixpoint for_downM {S} (n : nat) (body : nat -> S -> Rng S) (s : S) : Rng S :=
  match n with
  | O => ret s
  | S i => let* s' := body i s in for_downM i body s'
  end.

(** ** components/Visualizer.tsx: the entities *)

Record Canvas := mkCanvas { width : Z; height : Z }.

Module Bubble.
Record t := mk { x : Q; y : Q; size : Q; speed : Q; alpha : Q; life : Q }.
End Bubble.

Module Jelly.
Inductive State := FOLLOWING | FREE.
Record t := mk {
  x : Q; y : Q; vx : Q; vy : Q; scale : Q; phase : Q;
  state : State;
  bubbles : list Bubble.t
}.
End Jelly.

Module Snowflake.
Record t := mk {
  x : Q; y : Q; vx : Q; vy : Q; size : Q; spin : Q; spinSpeed : Q;
  opacity : Q;
  isParticle : bool
}.
End Snowflake.

Module Drop.
Record t := mk { x : Q; y : Q; len : Q; speed : Q }.
End Drop.

Module Ripple.
Record t := mk { x : Q; y : Q; r : Q; maxR : Q; alpha : Q; isHand : bool }.
End Ripple.

Module Splash.
Record t := mk { x : Q; y : Q; vx : Q; vy : Q; life : Q }.
End Splash.

(** [isOpen], computed alike by the three simulations. *)
Definition isOpen (handData : HandData.t) : bool :=
  let isHandInHud := HandData.y handData <? 0.2 in
  HandData.isPresent handData && negb (HandData.isPinching handData)
  && negb isHandInHud.

(** ** Jellyfish *)

Section Jellyfish.
Context `{JSRuntime}.

(** The random draws of the bell of [drawHighDensityJellyfish]: two for each
    dot of each of the six layers. *)
Definition drawHighDensityJellyfish : Rng unit :=
  let layers := 6%nat in
  foldM
    (fun l _ =>
       let dots := (15 + l * 6)%nat in
       foldM (fun _ _ => let* jitter := random in
                         let* radius := random in ret tt)
         (seq 0 (S dots)) tt)
    (seq 0 layers) tt.

(** The object pushed by the spawn loop. *)
Definition spawnJelly (handX handY : Q) : Rng Jelly.t :=
  let* r_scale := random in
  let scale := 0.3 + r_scale * 0.7 in
  let* r_x := random in
  let* r_y := random in
  let* r_vx := random in
  let* r_vy := random in
  let* r_phase := random in
  ret {| Jelly.x := handX + (r_x - 0.5) * 80;
         Jelly.y := handY + (r_y - 0.5) * 80;
         Jelly.vx := (r_vx - 0.5) * 5;
         Jelly.vy := (r_vy - 0.5) * 5;
         Jelly.scale := scale;
         Jelly.phase := r_phase * 10;
         Jelly.state := Jelly.FOLLOWING;
         Jelly.bubbles := [] |}.

(** SPAWN LOGIC (Rising Edge Trigger) *)
Definition spawn (handX handY : Q) (isOpen wasOpen : bool)
    (particles : list Jelly.t) : Rng (list Jelly.t) :=
  if isOpen && negb wasOpen then
    if (length particles <? 20)%nat then
      let* r := random in
      let spawnCount := (Math_floor (r * 2) + 3)%Z in
      repeatM (Z.to_nat spawnCount)
        (fun ps => let* j := spawnJelly handX handY in ret (ps ++ [j]))
        particles
    else ret particles
  else ret particles.

(** STATE MANAGEMENT: the body of the [forEach]. *)
Definition release (p : Jelly.t) : Rng Jelly.t :=
  match Jelly.state p with
  | Jelly.FOLLOWING =>
      let* r_vx := random in
      let* r_vy := random in
      ret {| Jelly.x := Jelly.x p; Jelly.y := Jelly.y p;
             Jelly.vx := (r_vx - 0.5) * 6;
             Jelly.vy := (r_vy - 0.5) * 6;
             Jelly.scale := Jelly.scale p; Jelly.phase := Jelly.phase p;
             Jelly.state := Jelly.FREE;
             Jelly.bubbles := Jelly.bubbles p |}
  | Jelly.FREE => ret p
  end.

Definition stateManagement (handData : HandData.t) (isOpen wasOpen : bool)
    (particles : list Jelly.t) : Rng (list Jelly.t) :=
  if (negb isOpen && wasOpen) || negb (HandData.isPresent handData) then
    forEachM release particles
  else ret particles.

(** 1. Movement *)
Definition move (canvas : Canvas) (handX handY time : Q) (jelly : Jelly.t)
  : Jelly.t :=
  match Jelly.state jelly with
  | Jelly.FOLLOWING =>
      let dx := handX - Jelly.x jelly in
      let dy := handY - Jelly.y jelly in
      let x := Jelly.x jelly + dx * 0.08 in
      let y := Jelly.y jelly + dy * 0.08 in
      let y := y + Math_sin (time * 5 + Jelly.phase jelly) * 1.5 in
      {| Jelly.x := x; Jelly.y := y;
         Jelly.vx := Jelly.vx jelly; Jelly.vy := Jelly.vy jelly;
         Jelly.scale := Jelly.scale jelly; Jelly.phase := Jelly.phase jelly;
         Jelly.state := Jelly.state jelly;
         Jelly.bubbles := Jelly.bubbles jelly |}
  | Jelly.FREE =>
      let x := Jelly.x jelly + Jelly.vx jelly in
      let y := Jelly.y jelly + Jelly.vy jelly in
      let vx := Jelly.vx jelly * 0.98 in
      let vy := Jelly.vy jelly * 0.98 in
      let vx := vx + Math_sin (time * 2 + Jelly.phase jelly) * 0.05 in
      let vy := vy + Math_cos (time * 2 + Jelly.phase jelly) * 0.05 in
      let x := if x <? -100 then num (width canvas) + 100 else x in
      let x := if x >? num (width canvas) + 100 then -100 else x in
      let y := if y <? -100 then num (height canvas) + 100 else y in
      let y := if y >? num (height canvas) + 100 then -100 else y in
      {| Jelly.x := x; Jelly.y := y; Jelly.vx := vx; Jelly.vy := vy;
         Jelly.scale := Jelly.scale jelly; Jelly.phase := Jelly.phase jelly;
         Jelly.state := Jelly.state jelly;
         Jelly.bubbles := Jelly.bubbles jelly |}
  end.

(** 2. Bubble Logic: the emission ... *)
Definition emitBubble (jelly : Jelly.t) : Rng Jelly.t :=
  let* r := random in
  if r <? 0.15 then
    let* r_x := random in
    let* r_size := random in
    let* r_speed := random in
    let bubble :=
      {| Bubble.x := Jelly.x jelly + (r_x - 0.5) * 20 * Jelly.scale jelly;
         Bubble.y := Jelly.y jelly + 20 * Jelly.scale jelly;
         Bubble.size := (r_size * 2 + 0.5) * Jelly.scale jelly;
         Bubble.speed := r_speed * 2 + 1;
         Bubble.alpha := 0.8;
         Bubble.life := 100 |} in
    ret {| Jelly.x := Jelly.x jelly; Jelly.y := Jelly.y jelly;
           Jelly.vx := Jelly.vx jelly; Jelly.vy := Jelly.vy jelly;
           Jelly.scale := Jelly.scale jelly; Jelly.phase := Jelly.phase jelly;
           Jelly.state := Jelly.state jelly;
           Jelly.bubbles := Jelly.bubbles jelly ++ [bubble] |}
  else ret jelly.

(** ... and the loop over the bubbles, from the last to the first. *)
Definition updateBubble (time : Q) (b : nat) (bubbles : list Bubble.t)
  : list Bubble.t :=
  match bubbles !! b with
  | Some bubble =>
      let bubble :=
        {| Bubble.x := Bubble.x bubble
                       + Math_sin (time * 5 + Bubble.life bubble) * 0.5;
           Bubble.y := Bubble.y bubble - Bubble.speed bubble;
           Bubble.size := Bubble.size bubble;
           Bubble.speed := Bubble.speed bubble;
           Bubble.alpha := Bubble.alpha bubble - 0.02;
           Bubble.life := Bubble.life bubble |} in
      if Bubble.alpha bubble <=? 0 then delete b bubbles
      else <[b := bubble]> bubbles
  | None => bubbles
  end.

Definition updateBubbles (time : Q) (jelly : Jelly.t) : Jelly.t :=
  {| Jelly.x := Jelly.x jelly; Jelly.y := Jelly.y jelly;
     Jelly.vx := Jelly.vx jelly; Jelly.vy := Jelly.vy jelly;
     Jelly.scale := Jelly.scale jelly; Jelly.phase := Jelly.phase jelly;
     Jelly.state := Jelly.state jelly;
     Jelly.bubbles :=
       for_down (length (Jelly.bubbles jelly)) (updateBubble time)
         (Jelly.bubbles jelly) |}.

(** UPDATE & DRAW: the body of the [forEach]. *)
Definition updateJelly (canvas : Canvas) (handX handY time : Q)
    (jelly : Jelly.t) : Rng Jelly.t :=
  let jelly := move canvas handX handY time jelly in
  let* jelly := emitBubble jelly in
  let jelly := updateBubbles time jelly in
  seq_ drawHighDensityJellyfish (ret jelly).

(** [time] is [Date.now() / 1000]. *)
Definition renderJellyfish (canvas : Canvas) (handData : HandData.t)
    (time : Q) (st : list Jelly.t * bool) : Rng (list Jelly.t * bool) :=
  let '(particles, wasOpen) := st in
  let handX := if HandData.isPresent handData
               then HandData.x handData * num (width canvas)
               else num (width canvas) / 2 in
  let handY := if HandData.isPresent handData
               then HandData.y handData * num (height canvas)
               else num (height canvas) / 2 in
  let isOpen := isOpen handData in
  let* particles := spawn handX handY isOpen wasOpen particles in
  let* particles := stateManagement handData isOpen wasOpen particles in
  let wasOpen := isOpen in
  let* particles := forEachM (updateJelly canvas handX handY time) particles in
  ret (particles, wasOpen).

End Jellyfish.

(** ** Snow *)

(** The integer indices [lo, lo + 1, ..., hi] of a counting loop. *)
Definition range (lo hi : Z) : list Z := seqZ lo (hi - lo + 1).

Definition Math_abs (r : Z) : Q := num (Z.abs r).

(** The mound added around the column [gx] by a flake of size [size]. *)
Definition mound (canvas : Canvas) (gx : Z) (size : Q) (ground : list Q)
  : list Q :=
  let radius := Math_floor (size * 2) in
  fold_left
    (fun ground r =>
       let idx := (gx + r)%Z in
       if (0 <=? idx)%Z && (idx <? width canvas)%Z then
         match ground !! Z.to_nat idx with
         | Some g =>
             let contribution := (1 - Math_abs r / num radius) * (size * 0.5) in
             let g := g - contribution in
             let g := if g <? 0 then 0 else g in
             <[Z.to_nat idx := g]> ground
         | None => ground
         end
       else ground)
    (range (- radius) radius) ground.

(** 4. Erase/Melt Snow Logic, for a hand below 70% of the height. *)
Definition melt (canvas : Canvas) (hx : Z) (ground : list Q) : list Q :=
  let brushSize := 50%Z in
  fold_left
    (fun ground dx =>
       let idx := (hx + dx)%Z in
       if (0 <=? idx)%Z && (idx <? width canvas)%Z then
         match ground !! Z.to_nat idx with
         | Some g =>
             let dist := Math_abs dx in
             let power := 3 * (1 - dist / num brushSize) in
             <[Z.to_nat idx := Qmin (num (height canvas)) (g + power)]> ground
         | None => ground
         end
       else ground)
    (range (- brushSize) brushSize) ground.

Section Snow.
Context `{JSRuntime}.

(** Helper for creating diversity *)
Definition createSnowflake (x y : Q) : Rng Snowflake.t :=
  let* r_big := random in
  let isBig := r_big >? 0.95 in
  let* r_vx := random in
  let* r_vy := random in
  let* r_size := random in
  let* r_spin := random in
  let* r_spinSpeed := random in
  ret {| Snowflake.x := x;
         Snowflake.y := y;
         Snowflake.vx := (r_vx - 0.5) * (if isBig then 0.5 else 2.0);
         Snowflake.vy := if isBig then 2.2 + r_vy * 1.5 else 0.3 + r_vy * 0.8;
         Snowflake.size := if isBig then 8 + r_size * 12 else 1 + r_size * 3;
         Snowflake.spin := r_spin * Math_PI;
         Snowflake.spinSpeed := (r_spinSpeed - 0.5) * 0.05;
         Snowflake.opacity := if isBig then 0.95 else 0.85;
         Snowflake.isParticle := negb isBig |}.

(** 1. Ambient Falling Snow *)
Definition ambientSnow (canvas : Canvas) (particles : list Snowflake.t)
  : Rng (list Snowflake.t) :=
  foldM (fun _ ps =>
           let* r_x := random in
           let* p := createSnowflake (r_x * num (width canvas)) (-20) in
           ret (ps ++ [p]))
    (seq 0 2) particles.

(** 2. Hand Spawn Snow *)
Definition handSnow (isOpen : bool) (handX handY : Q)
    (particles : list Snowflake.t) : Rng (list Snowflake.t) :=
  if isOpen then
    foldM (fun _ ps =>
             let* r_x := random in
             let* r_y := random in
             let* p := createSnowflake (handX + (r_x - 0.5) * 60)
                                       (handY + (r_y - 0.5) * 60) in
             ret (ps ++ [p]))
      (seq 0 3) particles
  else ret particles.

(** Physics *)
Definition fall (p : Snowflake.t) : Snowflake.t :=
  {| Snowflake.x := Snowflake.x p
                    + (Snowflake.vx p
                       + Math_sin (Snowflake.y p * 0.01)
                         * (if Snowflake.isParticle p then 0.8 else 0.2));
     Snowflake.y := Snowflake.y p + Snowflake.vy p;
     Snowflake.vx := Snowflake.vx p;
     Snowflake.vy := Snowflake.vy p;
     Snowflake.size := Snowflake.size p;
     Snowflake.spin := Snowflake.spin p + Snowflake.spinSpeed p;
     Snowflake.spinSpeed := Snowflake.spinSpeed p;
     Snowflake.opacity := Snowflake.opacity p;
     Snowflake.isParticle := Snowflake.isParticle p |}.

(** 3. Update Particles: the body of the loop at index [i].  [ground[gx]]
    is [undefined] out of range, and a comparison with it is false. *)
Definition updateSnowflake (canvas : Canvas) (i : nat)
    (st : list Snowflake.t * option (list Q))
  : list Snowflake.t * option (list Q) :=
  let '(particles, ground) := st in
  match particles !! i with
  | Some p =>
      let p := fall p in
      let gx := Z.max 0 (Z.min (width canvas - 1)
                               (Math_floor (Snowflake.x p))) in
      let groundLevel :=
        match ground with
        | Some g => g !! Z.to_nat gx
        | None => Some (num (height canvas))
        end in
      let landed :=
        match groundLevel with
        | Some groundLevel =>
            Snowflake.y p >=? groundLevel - Snowflake.size p * 0.5
        | None => false
        end in
      if landed then
        (delete i particles, mound canvas gx (Snowflake.size p) <$> ground)
      else (<[i := p]> particles, ground)
  | None => st
  end.

Definition meltGround (canvas : Canvas) (handData : HandData.t)
    (ground : option (list Q)) : option (list Q) :=
  let handX := HandData.x handData * num (width canvas) in
  let handY := HandData.y handData * num (height canvas) in
  match ground with
  | Some g =>
      if HandData.isPresent handData then
        let hx := Math_floor handX in
        let hy := handY in
        if hy >? num (height canvas) * 0.7 then Some (melt canvas hx g)
        else ground
      else ground
  | None => None
  end.

Definition renderSnow (canvas : Canvas) (handData : HandData.t)
    (st : list Snowflake.t * option (list Q))
  : Rng (list Snowflake.t * option (list Q)) :=
  let '(particles, ground) := st in
  let isOpen := isOpen handData in
  let handX := HandData.x handData * num (width canvas) in
  let handY := HandData.y handData * num (height canvas) in
  let* particles := ambientSnow canvas particles in
  let* particles := handSnow isOpen handX handY particles in
  let '(particles, ground) :=
    for_down (length particles) (updateSnowflake canvas) (particles, ground) in
  let ground := meltGround canvas handData ground in
  ret (particles, ground).

End Snow.

(** ** Rain *)

Definition Qclamp01 (a : Q) : Q := Qmin (Qmax a 0) 1.

Record RainState := mkRain {
  drops : list Drop.t;
  ripples : list Ripple.t;
  splashes : list Splash.t
}.

Section Rain.
Context `{JSRuntime}.

Definition intensity (handData : HandData.t) : Q :=
  if isOpen handData then
    let openness := Qclamp01 ((HandData.pinchDistance handData - 0.02) * 4) in
    openness
  else 0.

Definition waterLevel (canvas : Canvas) : Q := num (height canvas) - 100.

Definition spawnDrops (canvas : Canvas) (spawnRate : Z) (particles : list Drop.t)
  : Rng (list Drop.t) :=
  foldM (fun _ ps =>
           let* r_x := random in
           let* r_len := random in
           let* r_speed := random in
           ret (ps ++ [ {| Drop.x := r_x * num (width canvas);
                           Drop.y := -50;
                           Drop.len := 20 + r_len * 20;
                           Drop.speed := 20 + r_speed * 10 |} ]))
    (seq 0 (Z.to_nat spawnRate)) particles.

(** The ripple and the three splashes of a drop that hits the water. *)
Definition dropRipple (canvas : Canvas) (p : Drop.t) : Rng Ripple.t :=
  let* r_y := random in
  let* r_maxR := random in
  ret {| Ripple.x := Drop.x p;
         Ripple.y := waterLevel canvas + r_y * 10;
         Ripple.r := 0;
         Ripple.maxR := 20 + r_maxR * 20;
         Ripple.alpha := 1;
         Ripple.isHand := false |}.

Definition dropSplashes (canvas : Canvas) (p : Drop.t)
    (splashes : list Splash.t) : Rng (list Splash.t) :=
  foldM (fun _ ss =>
           let* r_vx := random in
           let* r_vy := random in
           ret (ss ++ [ {| Splash.x := Drop.x p;
                           Splash.y := waterLevel canvas;
                           Splash.vx := (r_vx - 0.5) * 4;
                           Splash.vy := - (r_vy * 5 + 2);
                           Splash.life := 1.0 |} ]))
    (seq 0 3) splashes.

(** The body of the loop over the drops at index [i]. *)
Definition updateDrop (canvas : Canvas) (i : nat) (st : RainState)
  : Rng RainState :=
  match drops st !! i with
  | Some p =>
      let p := {| Drop.x := Drop.x p; Drop.y := Drop.y p + Drop.speed p;
                  Drop.len := Drop.len p; Drop.speed := Drop.speed p |} in
      if Drop.y p >? waterLevel canvas then
        let* ripple := dropRipple canvas p in
        let* splashes := dropSplashes canvas p (splashes st) in
        ret {| drops := delete i (drops st);
               ripples := ripples st ++ [ripple];
               splashes := splashes |}
      else
        ret {| drops := <[i := p]> (drops st);
               ripples := ripples st;
               splashes := splashes st |}
  | None => ret st
  end.

(** The ripple and the splash of a hand near the water. *)
Definition handWater (canvas : Canvas) (handData : HandData.t)
    (st : RainState) : Rng RainState :=
  if HandData.isPresent handData
     && (HandData.y handData * num (height canvas) >? waterLevel canvas - 20)
  then
    let* r1 := random in
    let ripples :=
      if r1 >? 0.5 then
        ripples st ++ [ {| Ripple.x := HandData.x handData * num (width canvas);
                           Ripple.y := HandData.y handData * num (height canvas);
                           Ripple.r := 0;
                           Ripple.maxR := 40;
                           Ripple.alpha := 1;
                           Ripple.isHand := true |} ]
      else ripples st in
    let* r2 := random in
    if r2 >? 0.8 then
      let* r_vx := random in
      let* r_vy := random in
      ret {| drops := drops st;
             ripples := ripples;
             splashes :=
               splashes st
               ++ [ {| Splash.x := HandData.x handData * num (width canvas);
                       Splash.y := HandData.y handData * num (height canvas);
                       Splash.vx := (r_vx - 0.5) * 6;
                       Splash.vy := - r_vy * 8;
                       Splash.life := 1.0 |} ] |}
    else ret {| drops := drops st; ripples := ripples; splashes := splashes st |}
  else ret st.

Definition updateRipple (i : nat) (ripples : list Ripple.t) : list Ripple.t :=
  match ripples !! i with
  | Some rip =>
      let rip := {| Ripple.x := Ripple.x rip; Ripple.y := Ripple.y rip;
                    Ripple.r := Ripple.r rip + 1;
                    Ripple.maxR := Ripple.maxR rip;
                    Ripple.alpha := Ripple.alpha rip - 0.02;
                    Ripple.isHand := Ripple.isHand rip |} in
      if Ripple.alpha rip <=? 0 then delete i ripples
      else <[i := rip]> ripples
  | None => ripples
  end.

Definition updateSplash (canvas : Canvas) (i : nat) (splashes : list Splash.t)
  : list Splash.t :=
  match splashes !! i with
  | Some s =>
      let s := {| Splash.x := Splash.x s + Splash.vx s;
                  Splash.y := Splash.y s + Splash.vy s;
                  Splash.vx := Splash.vx s;
                  Splash.vy := Splash.vy s + 0.5;
                  Splash.life := Splash.life s - 0.05 |} in
      if (Splash.life s <=? 0) || (Splash.y s >? num (height canvas))
      then delete i splashes
      else <[i := s]> splashes
  | None => splashes
  end.

(** The first half of [renderRain]: the new drops and the loop over the
    drops. *)
Definition rainDrops (canvas : Canvas) (handData : HandData.t)
    (st : RainState) : Rng RainState :=
  let spawnRate := Math_floor (intensity handData * 10) in
  let* particles := spawnDrops canvas spawnRate (drops st) in
  let st := {| drops := particles; ripples := ripples st;
               splashes := splashes st |} in
  for_downM (length (drops st)) (updateDrop canvas) st.

Definition renderRain (canvas : Canvas) (handData : HandData.t)
    (st : RainState) : Rng RainState :=
  let* st := rainDrops canvas handData st in
  let* st := handWater canvas handData st in
  let ripples := for_down (length (ripples st)) updateRipple (ripples st) in
  let splashes :=
    for_down (length (splashes st)) (updateSplash canvas) (splashes st) in
  ret {| drops := drops st; ripples := ripples; splashes := splashes |}.

End Rain.

(** ** The Visualizer component *)

(** [particlesRef] is shared by the three simulations ([any[]]). *)
Inductive Particle :=
| AJelly (jelly : Jelly.t)
| ASnowflake (p : Snowflake.t)
| ADrop (p : Drop.t).

Definition asJelly (p : Particle) : option Jelly.t :=
  match p with AJelly j => Some j | _ => None end.
Definition asSnowflake (p : Particle) : option Snowflake.t :=
  match p with ASnowflake f => Some f | _ => None end.
Definition asDrop (p : Particle) : option Drop.t :=
  match p with ADrop d => Some d | _ => None end.

Record Refs := mkRefs {
  particlesRef : list Particle;
  ripplesRef : list Ripple.t;
  splashesRef : list Splash.t;
  snowGroundRef : option (list Q);
  wasOpenRef : bool
}.

(** The initial values of the [useRef] cells. *)
Definition initialRefs : Refs :=
  {| particlesRef := []; ripplesRef := []; splashesRef := [];
     snowGroundRef := None; wasOpenRef := false |}.

(** The effect with dependency [[mode]]: Reset systems on mode change. *)
Definition resetSystems (refs : Refs) : Refs :=
  {| particlesRef := [];
     ripplesRef := [];
     splashesRef := [];
     snowGroundRef := None;
     wasOpenRef := false |}.

(** Initialize Snow Ground if needed *)
Definition initSnowGround (mode : AppMode) (canvas : Canvas)
    (ground : option (list Q)) : option (list Q) :=
  match mode with
  | SNOW =>
      match ground with
      | Some g =>
          if (Z.of_nat (length g) =? width canvas)%Z then ground
          else Some (replicate (Z.to_nat (width canvas)) (num (height canvas)))
      | None => Some (replicate (Z.to_nat (width canvas)) (num (height canvas)))
      end
  | _ => ground
  end.

Record Visualizer := mkVisualizer {
  vmode : AppMode;
  vhandData : HandData.t;
  refs : Refs
}.

Section Visualizer.
Context `{JSRuntime}.

(** One call of [render]: [canvas] holds [window.innerWidth] and
    [window.innerHeight], [time] is [Date.now() / 1000].  The particles of
    the active simulation are read at the type of that simulation; the
    result is [None] if [particlesRef] holds a particle of another one. *)
Definition render (mode : AppMode) (handData : HandData.t) (canvas : Canvas)
    (time : Q) (refs : Refs) : Rng (option Refs) :=
  let ground := initSnowGround mode canvas (snowGroundRef refs) in
  match mode with
  | JELLYFISH =>
      match mapM asJelly (particlesRef refs) with
      | Some particles =>
          let* st := renderJellyfish canvas handData time
                       (particles, wasOpenRef refs) in
          ret (Some {| particlesRef := AJelly <$> fst st;
                       ripplesRef := ripplesRef refs;
                       splashesRef := splashesRef refs;
                       snowGroundRef := ground;
                       wasOpenRef := snd st |})
      | None => ret None
      end
  | SNOW =>
      match mapM asSnowflake (particlesRef refs) with
      | Some particles =>
          let* st := renderSnow canvas handData (particles, ground) in
          ret (Some {| particlesRef := ASnowflake <$> fst st;
                       ripplesRef := ripplesRef refs;
                       splashesRef := splashesRef refs;
                       snowGroundRef := snd st;
                       wasOpenRef := wasOpenRef refs |})
      | None => ret None
      end
  | RAIN =>
      match mapM asDrop (particlesRef refs) with
      | Some particles =>
          let* st := renderRain canvas handData
                       {| drops := particles; ripples := ripplesRef refs;
                          splashes := splashesRef refs |} in
          ret (Some {| particlesRef := ADrop <$> drops st;
                       ripplesRef := ripples st;
                       splashesRef := splashes st;
                       snowGroundRef := ground;
                       wasOpenRef := wasOpenRef refs |})
      | None => ret None
      end
  end.

(** The effects that run when the component is given new props: the reset
    if [mode] differs from the one of the last commit, then [render()]. *)
Definition modeEffect (v : Visualizer) (mode : AppMode) : Refs :=
  if AppMode_eqb (vmode v) mode then refs v else resetSystems (refs v).

Definition propsChange (v : Visualizer) (mode : AppMode)
    (handData : HandData.t) (canvas : Canvas) (time : Q)
  : Rng (option Visualizer) :=
  let* r := render mode handData canvas time (modeEffect v mode) in
  ret (mkVisualizer mode handData <$> r).

(** A later animation frame with unchanged props. *)
Definition animationFrame (v : Visualizer) (canvas : Canvas) (time : Q)
  : Rng (option Visualizer) :=
  let* r := render (vmode v) (vhandData v) canvas time (refs v) in
  ret (mkVisualizer (vmode v) (vhandData v) <$> r).

End Visualizer.

(** ** Sequences of ticks *)

(** The inputs of one tick of a simulation. *)
Record Tick := mkTick { tcanvas : Canvas; thandData : HandData.t; ttime : Q }.

Section Runs.
Context `{JSRuntime}.

Fixpoint runJellyfish (ticks : list Tick) (st : list Jelly.t * bool)
  : Rng (list Jelly.t * bool) :=
  match ticks with
  | [] => ret st
  | t :: ticks' =>
      let* st' := renderJellyfish (tcanvas t) (thandData t) (ttime t) st in
      runJellyfish ticks' st'
  end.

(** Each frame of [render] in the SNOW mode first initializes the ground
    if needed. *)
Fixpoint runSnow (ticks : list Tick) (st : list Snowflake.t * option (list Q))
  : Rng (list Snowflake.t * option (list Q)) :=
  match ticks with
  | [] => ret st
  | t :: ticks' =>
      let ground := initSnowGround SNOW (tcanvas t) (snd st) in
      let* st' := renderSnow (tcanvas t) (thandData t) (fst st, ground) in
      runSnow ticks' st'
  end.

Fixpoint runRain (ticks : list Tick) (st : RainState) : Rng RainState :=
  match ticks with
  | [] => ret st
  | t :: ticks' =>
      let* st' := renderRain (tcanvas t) (thandData t) st in
      runRain ticks' st'
  end.

(** The detection loop over a sequence of frames. *)
Fixpoint runLoop (frames : list Frame) (app : App) : option App :=
  match frames with
  | [] => Some app
  | fr :: frames' => app' ← loop app fr; runLoop frames' app'
  end.

End Runs.

(** ** components/HUDLayer.tsx: the lyrics *)

(** A JavaScript string is the list of its UTF-16 code units. *)
Definition JSString : Type := list N.

Module LyricLine.
Record t := mk { time : Q; text : JSString }.
End LyricLine.

(** [\d] of a regular expression without the unicode flag. *)
Definition isDigit (c : N) : bool := ((48 <=? c) && (c <=? 57))%N.

(** [parseInt(s, 10)] on a group of the regular expression, a string of
    decimal digits. *)
Definition parseInt10 (s : JSString) : N :=
  fold_left (fun acc c => (acc * 10 + (c - 48))%N) s 0%N.

(** The groups of a match of [timeReg]. *)
Record TimeMatch := mkTimeMatch {
  group1 : JSString;
  group2 : JSString;
  group3 : JSString
}.

(** A match of [/\[(\d{2}):(\d{2})\.(\d{2,3})\]/] at the start of [s], with
    what follows it.  The greedy [\d{2,3}] takes three digits when a third
    digit and the bracket follow, and two digits when the bracket follows
    them. *)
Definition matchHere (s : JSString) : option (TimeMatch * JSString) :=
  match s with
  | lb :: m1 :: m2 :: co :: s1 :: s2 :: dot :: f1 :: f2 :: rest =>
      if ((lb =? 91) && isDigit m1 && isDigit m2 && (co =? 58)
          && isDigit s1 && isDigit s2 && (dot =? 46)
          && isDigit f1 && isDigit f2)%N
      then
        match rest with
        | f3 :: rest1 =>
            match rest1 with
            | rb :: rest2 =>
                if (isDigit f3 && (rb =? 93))%N
                then Some (mkTimeMatch [m1; m2] [s1; s2] [f1; f2; f3], rest2)
                else if (f3 =? 93)%N
                     then Some (mkTimeMatch [m1; m2] [s1; s2] [f1; f2], rest1)
                     else None
            | [] =>
                if (f3 =? 93)%N
                then Some (mkTimeMatch [m1; m2] [s1; s2] [f1; f2], rest1)
                else None
            end
        | [] => None
        end
      else None
  | _ => None
  end.

(** [timeReg.exec(line)]: the leftmost match, with the text before it and the
    text after it. *)
Fixpoint exec (line : JSString) : option (JSString * TimeMatch * JSString) :=
  match matchHere line with
  | Some (m, rest) => Some ([], m, rest)
  | None =>
      match line with
      | [] => None
      | c :: line' =>
          match exec line' with
          | Some (before, m, rest) => Some (c :: before, m, rest)
          | None => None
          end
      end
  end.

(** The white space and the line terminators that [trim] removes. *)
Definition isWhiteSpace (c : N) : bool :=
  ((c =? 9) || (c =? 10) || (c =? 11) || (c =? 12) || (c =? 13) || (c =? 32)
   || (c =? 160) || (c =? 5760) || ((8192 <=? c) && (c <=? 8202))
   || (c =? 8232) || (c =? 8233) || (c =? 8239) || (c =? 8287)
   || (c =? 12288) || (c =? 65279))%N.

Fixpoint trimStart (s : JSString) : JSString :=
  match s with
  | c :: s' => if isWhiteSpace c then trimStart s' else s
  | [] => []
  end.

Definition trim (s : JSString) : JSString :=
  rev (trimStart (rev (trimStart s))).

(** [lrc.split('\n')] *)
Fixpoint split (s : JSString) : list JSString :=
  match s with
  | [] => [[]]
  | c :: s' =>
      if (c =? 10)%N then [] :: split s'
      else match split s' with
           | line :: lines => (c :: line) :: lines
           | [] => [[c]]
           end
  end.

(** The body of the [forEach] of [parseLRC]. *)
Definition parseLine (result : list LyricLine.t) (line : JSString)
  : list LyricLine.t :=
  match exec line with
  | Some (before, m, rest) =>
      let min := parseInt10 (group1 m) in
      let sec := parseInt10 (group2 m) in
      let ms := parseInt10 (group3 m) in
      let time :=
        num (Z.of_N min) * 60 + num (Z.of_N sec)
        + num (Z.of_N ms) / (if (length (group3 m) =? 3)%nat then 1000 else 100) in
      let text := trim (before ++ rest) in
      match text with
      | [] => result
      | _ :: _ => result ++ [ {| LyricLine.time := time; LyricLine.text := text |} ]
      end
  | None => result
  end.

Definition parseLRC (lrc : JSString) : list LyricLine.t :=
  fold_left parseLine (split lrc) [].

(** Find active line: the loop, with the counter [i] and the variable
    [index]. *)
Fixpoint activeLineLoop (currentTime : Q) (lyrics : list LyricLine.t)
    (i index : Z) : Z :=
  match lyrics with
  | [] => index
  | line :: lyrics' =>
      if currentTime >=? LyricLine.time line
      then activeLineLoop currentTime lyrics' (i + 1) i
      else index
  end.

Definition activeLineIndex (currentTime : Q) (lyrics : list LyricLine.t) : Z :=
  activeLineLoop currentTime lyrics 0 (-1).

(** ** The events of the Visualizer *)

Inductive VEvent :=
| PropsChange (mode : AppMode) (handData : HandData.t) (canvas : Canvas)
    (time : Q)
| AnimationFrame (canvas : Canvas) (time : Q).

Section VisualizerRuns.
Context `{JSRuntime}.

Definition visualizerStep (v : Visualizer) (e : VEvent)
  : Rng (option Visualizer) :=
  match e with
  | PropsChange mode handData canvas time =>
      propsChange v mode handData canvas time
  | AnimationFrame canvas time => animationFrame v canvas time
  end.

Fixpoint runVisualizer (events : list VEvent) (v : Visualizer)
  : Rng (option Visualizer) :=
  match events with
  | [] => ret (Some v)
  | e :: events' =>
      let* r := visualizerStep v e in
      match r with
      | Some v' => runVisualizer events' v'
      | None => ret None
      end
  end.

(** A bubble after one tick. *)
Definition moveBubble (time : Q) (bubble : Bubble.t) : Bubble.t :=
  {| Bubble.x := Bubble.x bubble
                 + Math_sin (time * 5 + Bubble.life bubble) * 0.5;
     Bubble.y := Bubble.y bubble - Bubble.speed bubble;
     Bubble.size := Bubble.size bubble;
     Bubble.speed := Bubble.speed bubble;
     Bubble.alpha := Bubble.alpha bubble - 0.02;
     Bubble.life := Bubble.life bubble |}.

End VisualizerRuns.

(** The component as it is mounted. *)
Definition mountedVisualizer (handData : HandData.t) : Visualizer :=
  {| vmode := JELLYFISH; vhandData := handData; refs := initialRefs |}.

(** ** Observers used in the statements *)

(** The frame passes the gates of [loop]: the video is ready and its
    timestamp differs from the one processed last. *)
Definition processed (app : App) (fr : Frame) : bool :=
  match video fr with
  | Some v => (readyState v =? 4)%Z
              && negb (Qeq_bool (currentTime v) (lastVideoTimeRef app))
  | None => false
  end.

(** The first detected hand, if there is one. *)
Definition detectedHand (fr : Frame) : option (list Landmark.t) :=
  match detections_landmarks fr with
  | Some (landmarks :: _) => Some landmarks
  | _ => None
  end.

Section Observers.
Context `{JSRuntime}.

(** The Euclidean distance of two landmarks, points (x, y, z), as the
    specification words it. *)
Definition euclideanDistance (p q : Landmark.t) : Q :=
  Math_sqrt ((Landmark.x p - Landmark.x q) ^ 2
             + (Landmark.y p - Landmark.y q) ^ 2
             + (Landmark.z p - Landmark.z q) ^ 2).

(** The distance of two landmarks in the image plane: the Euclidean distance
    of their x and y coordinates. *)
Definition imagePlaneDistance (p q : Landmark.t) : Q :=
  Math_sqrt ((Landmark.x p - Landmark.x q) ^ 2
             + (Landmark.y p - Landmark.y q) ^ 2).

(** The OK gesture is detected on the landmarks of a hand. *)
Definition detectsOk (landmarks : list Landmark.t) : bool :=
  match landmarks !! 0%nat, landmarks !! 4%nat, landmarks !! 8%nat,
        landmarks !! 12%nat, landmarks !! 16%nat, landmarks !! 20%nat with
  | Some wrist, Some thumbTip, Some indexTip,
    Some middleTip, Some ringTip, Some pinkyTip =>
      isOkGesture wrist thumbTip indexTip middleTip ringTip pinkyTip
  | _, _, _, _, _, _ => false
  end.

(** The frame makes [loop] emit a ModeSwitch. *)
Definition emitsModeSwitch (app : App) (fr : Frame) : bool :=
  processed app fr
  && match detectedHand fr with
     | Some landmarks =>
         detectsOk landmarks
         && (Date_now fr - lastSwitchTimeRef app >? 1500)%Z
     | None => false
     end.

(** Each frame of the run is a new frame of a ready video that shows the OK
    gesture more than 1500 ms after the frame before it, the first one more
    than 1500 ms after [lastSwitchTime]. *)
Fixpoint okGestures (frames : list Frame) (lastVideoTime : Q)
    (lastSwitchTime : Z) : bool :=
  match frames with
  | [] => true
  | fr :: frames' =>
      match video fr, detectedHand fr with
      | Some v, Some landmarks =>
          (readyState v =? 4)%Z
          && negb (Qeq_bool (currentTime v) lastVideoTime)
          && detectsOk landmarks
          && (Date_now fr - lastSwitchTime >? 1500)%Z
          && okGestures frames' (currentTime v) (Date_now fr)
      | _, _ => false
      end
  end.

End Observers.


(** The entry of the ground at column [i]. *)
Definition groundAt (st : list Snowflake.t * option (list Q)) (i : nat)
  : option Q :=
  g ← snd st; g !! i.

(** Every entry of the ground lies between 0 and [H]. *)
Definition inRange (H : Q) (g : list Q) : Prop :=
  Forall (fun v => 0 <= v /\ v <= H) g.

Definition groundOk (H : Q) (ground : option (list Q)) : Prop :=
  match ground with
  | Some g => inRange H g
  | None => True
  end.

(** The sizes that [createSnowflake] gives to a flake are at least 1. *)
Definition sizeOk (p : Snowflake.t) : Prop := 1 <= Snowflake.size p.

(** The invariant of the snow simulation on a canvas of height [H]. *)
Definition snowInv (H : Q) (st : list Snowflake.t * option (list Q)) : Prop :=
  Forall sizeOk (fst st) /\ groundOk H (snd st).

(** A ripple and a splash after one tick. *)
Definition moveRipple (rip : Ripple.t) : Ripple.t :=
  {| Ripple.x := Ripple.x rip; Ripple.y := Ripple.y rip;
     Ripple.r := Ripple.r rip + 1;
     Ripple.maxR := Ripple.maxR rip;
     Ripple.alpha := Ripple.alpha rip - 0.02;
     Ripple.isHand := Ripple.isHand rip |}.

Definition moveSplash (s : Splash.t) : Splash.t :=
  {| Splash.x := Splash.x s + Splash.vx s;
     Splash.y := Splash.y s + Splash.vy s;
     Splash.vx := Splash.vx s;
     Splash.vy := Splash.vy s + 0.5;
     Splash.life := Splash.life s - 0.05 |}.

(** The drop reaches the water on its next move. *)
Definition hitsWater (canvas : Canvas) (p : Drop.t) : bool :=
  Drop.y p + Drop.speed p >? waterLevel canvas.

(** The drop after a move that keeps it in the air. *)
Definition advance (p : Drop.t) : Drop.t :=
  {| Drop.x := Drop.x p; Drop.y := Drop.y p + Drop.speed p;
     Drop.len := Drop.len p; Drop.speed := Drop.speed p |}.

(** The tick on which a drop spawned at -50 with speed 25 reaches the water
    of a canvas. *)
Definition crossTick (canvas : Canvas) : nat :=
  Z.to_nat (Z.max 1 ((height canvas - 50) / 25 + 1)).

(** The particles of [particlesRef] all belong to the simulation of [mode]. *)
Definition homogeneous (mode : AppMode) (ps : list Particle) : Prop :=
  match mode with
  | JELLYFISH => exists l, ps = AJelly <$> l
  | SNOW => exists l, ps = ASnowflake <$> l
  | RAIN => exists l, ps = ADrop <$> l
  end.

(** The landmark lies in the unit square of the camera image. *)
Definition inUnitSquare (p : Landmark.t) : Prop :=
  (0 <= Landmark.x p /\ Landmark.x p <= 1)
  /\ (0 <= Landmark.y p /\ Landmark.y p <= 1).

(** ** Sample inputs *)

(** A square root that is exact on the squares of rationals. *)
Definition sqrt_exact (q : Q) : Q :=
  let r := Qred q in Z.sqrt (Qnum r) # Pos.sqrt (Qden r).

(** A runtime whose random source always returns [r], with the oscillators
    frozen at angle zero. *)
Definition constRuntime (r : Q) : JSRuntime :=
  {| Math_sqrt := sqrt_exact;
     Math_sin := fun _ => 0;
     Math_cos := fun _ => 1;
     Math_PI := 355 # 113;
     Math_random := fun _ => r |}.

(** A runtime whose random source replays [draws], then returns [r]. *)
Definition listRuntime (draws : list Q) (r : Q) : JSRuntime :=
  {| Math_sqrt := sqrt_exact;
     Math_sin := fun _ => 0;
     Math_cos := fun _ => 1;
     Math_PI := 355 # 113;
     Math_random := fun n => nth n draws r |}.

(** A runtime whose random source returns 0 at position [p] and 0.5
    elsewhere. *)
Definition spikeRuntime (p : Z) : JSRuntime :=
  {| Math_sqrt := sqrt_exact;
     Math_sin := fun _ => 0;
     Math_cos := fun _ => 1;
     Math_PI := 355 # 113;
     Math_random := fun n => if (Z.of_nat n =? p)%Z then 0 else 0.5 |}.

Definition pt (x y : Q) : Landmark.t := Landmark.mk x y 0.

(** A hand making the OK sign: thumb and index tips touch at the centre, the
    three other fingertips are at the top edge, the wrist at the bottom. *)
Definition okHand : list Landmark.t :=
  [ pt 0.5 1;                                              (* 0 wrist *)
    pt 0.5 0.75; pt 0.5 0.75; pt 0.5 0.5; pt 0.5 0.5;      (* thumb, tip 4 *)
    pt 0.5 0.75; pt 0.5 0.75; pt 0.5 0.5; pt 0.5 0.5;      (* index, tip 8 *)
    pt 0.5 0.75; pt 0.5 0.5; pt 0.5 0.25; pt 0.5 0;        (* middle, tip 12 *)
    pt 0.5 0.75; pt 0.5 0.5; pt 0.5 0.25; pt 0.5 0;        (* ring, tip 16 *)
    pt 0.5 0.75; pt 0.5 0.5; pt 0.5 0.25; pt 0.5 0 ].      (* pinky, tip 20 *)

(** An open hand: as [okHand], with the thumb tip a quarter of the width
    away from the index tip. *)
Definition openHand : list Landmark.t := <[4%nat := pt 0.25 0.5]> okHand.

Definition frameAt (t : Q) (hands : list (list Landmark.t)) (now : Z) : Frame :=
  {| video := Some (mkVideo 4 t);
     detections_landmarks := Some hands;
     Date_now := now |}.

(** An application state some time after a mode switch. *)
Definition switchedApp : App :=
  {| mode := SNOW;
     handData := HandData.mk 0.5 0.8 true 0 true (Some okHand);
     hoveredTab := None;
     lastVideoTimeRef := 12;
     lastSwitchTimeRef := 1700000000000%Z |}.

(** Poses of an open hand in the middle of the frame and of no hand. *)
Definition openPose : HandData.t := HandData.mk 0.5 0.5 false 0.25 true None.
Definition absentPose : HandData.t := HandData.mk 0.5 0.5 false 0.25 false None.

(** An open hand near the bottom of the frame. *)
Definition lowPose : HandData.t := HandData.mk 0.5 0.9 false 0.25 true None.

Definition sampleCanvas : Canvas := mkCanvas 1280 720.

Definition lonelyDrop (x len : Q) : Drop.t :=
  {| Drop.x := x; Drop.y := -50; Drop.len := len; Drop.speed := 25 |}.

(** [k] times: a tick with the open hand, then a tick without a hand. *)
Definition openCloseTicks (k : nat) : list Tick :=
  concat (replicate k [mkTick sampleCanvas openPose 1700000000;
                       mkTick sampleCanvas absentPose 1700000000]).

(** Rain with one drop about to reach the water and one high in the air. *)
Definition sampleRain : RainState :=
  {| drops := [ {| Drop.x := 10; Drop.y := 610; Drop.len := 25; Drop.speed := 22 |};
                {| Drop.x := 20; Drop.y := 100; Drop.len := 30; Drop.speed := 28 |} ];
     ripples := [];
     splashes := [] |}.

Definition followingJelly : Jelly.t :=
  {| Jelly.x := 640; Jelly.y := 360; Jelly.vx := 1; Jelly.vy := -1;
     Jelly.scale := 0.5; Jelly.phase := 5;
     Jelly.state := Jelly.FOLLOWING; Jelly.bubbles := [] |}.

Definition freeJelly : Jelly.t :=
  {| Jelly.x := 100; Jelly.y := 200; Jelly.vx := 2; Jelly.vy := 1;
     Jelly.scale := 0.5; Jelly.phase := 5;
     Jelly.state := Jelly.FREE; Jelly.bubbles := [] |}.

(** A Visualizer in the middle of the jellyfish theme. *)
Definition busyVisualizer : Visualizer :=
  {| vmode := JELLYFISH;
     vhandData := openPose;
     refs := {| particlesRef := [AJelly followingJelly; AJelly freeJelly];
                ripplesRef := [];
                splashesRef := [];
                snowGroundRef := None;
                wasOpenRef := true |} |}.

(** A hand as [okHand] whose thumb tip lies half a unit behind the index
    tip. *)
Definition deepHand : list Landmark.t :=
  <[4%nat := Landmark.mk 0.5 0.5 0.5]> okHand.


(** A runtime whose first draws differ from each other. *)
Definition stepRuntime : JSRuntime :=
  listRuntime [0.1; 0.2; 0.3; 0.4; 0.6; 0.7; 0.8; 0.9] 0.5.

(** A small flake, as [createSnowflake] makes them, about to land in the
    middle of [sampleCanvas], and a ground that snow has raised by 20
    everywhere. *)
Definition landingFlake : Snowflake.t :=
  {| Snowflake.x := 640.5; Snowflake.y := 699;
     Snowflake.vx := 0; Snowflake.vy := 0.7;
     Snowflake.size := 2.5; Snowflake.spin := 0; Snowflake.spinSpeed := 0;
     Snowflake.opacity := 0.85; Snowflake.isParticle := true |}.

Definition snowyGround : list Q := replicate 1280 700.

(** A FOLLOWING creature far to the left of the middle of the frame. *)
Definition strayJelly : Jelly.t :=
  {| Jelly.x := 100; Jelly.y := 200; Jelly.vx := 1; Jelly.vy := -1;
     Jelly.scale := 0.5; Jelly.phase := 5;
     Jelly.state := Jelly.FOLLOWING; Jelly.bubbles := [] |}.

(** * Properties *)

(** ** Comparisons of numbers *)

Lemma Qltb_lt (a b : Q) : (a <? b) = true <-> a < b.
Proof.
  unfold Qltb. rewrite negb_true_iff, <- not_true_iff_false, Qle_bool_iff.
  split; [apply Qnot_le_lt | apply Qlt_not_le].
Qed.

Lemma Qltb_ge (a b : Q) : (a <? b) = false <-> b <= a.
Proof.
  unfold Qltb. rewrite negb_false_iff. apply Qle_bool_iff.
Qed.

Lemma Qgtb_gt (a b : Q) : (a >? b) = true <-> b < a.
Proof. apply Qltb_lt. Qed.

Lemma Qgtb_le (a b : Q) : (a >? b) = false <-> a <= b.
Proof. apply Qltb_ge. Qed.

(** ** The hand-signal processor and the mode controller *)

Section DetectionFacts.
Context `{JSRuntime}.

Lemma loop_detected (app : App) (fr : Frame) (v : Video)
    (landmarks : list Landmark.t) :
  video fr = Some v ->
  processed app fr = true ->
  detectedHand fr = Some landmarks ->
  loop app fr
  = trackHand (setLastVideoTime app (currentTime v)) (Date_now fr) landmarks.
Proof.
  unfold processed, detectedHand, loop. intros -> Hp Hd.
  apply andb_true_iff in Hp as [-> ->].
  destruct (detections_landmarks fr) as [[|l ls]|]; congruence.
Qed.

Lemma loop_absent (app : App) (fr : Frame) (v : Video) :
  video fr = Some v ->
  processed app fr = true ->
  detectedHand fr = None ->
  loop app fr = Some (loseHand (setLastVideoTime app (currentTime v))).
Proof.
  unfold processed, detectedHand, loop. intros -> Hp Hd.
  apply andb_true_iff in Hp as [-> ->].
  destruct (detections_landmarks fr) as [[|l ls]|]; congruence.
Qed.

Lemma processed_video (app : App) (fr : Frame) :
  processed app fr = true -> exists v, video fr = Some v.
Proof.
  unfold processed. destruct (video fr) as [v|]; [eauto | discriminate].
Qed.

(** With the 21 landmarks of a hand no lookup of [trackHand] fails. *)
Lemma trackHand_Some (app : App) (now : Z) (landmarks : list Landmark.t) :
  (20 < length landmarks)%nat ->
  exists kp wrist thumbTip indexTip middleTip ringTip pinkyTip,
    keyPoints landmarks = Some kp
    /\ landmarks !! 0%nat = Some wrist
    /\ landmarks !! 4%nat = Some thumbTip
    /\ landmarks !! 8%nat = Some indexTip
    /\ landmarks !! 12%nat = Some middleTip
    /\ landmarks !! 16%nat = Some ringTip
    /\ landmarks !! 20%nat = Some pinkyTip
    /\ trackHand app now landmarks
       = let switch :=
           isOkGesture wrist thumbTip indexTip middleTip ringTip pinkyTip
           && (now - lastSwitchTimeRef app >? 1500)%Z in
         let newHandData :=
           {| HandData.x := centroidX kp;
              HandData.y := centroidY kp;
              HandData.isPinching := isPinching indexTip thumbTip;
              HandData.pinchDistance := pinchDistance indexTip thumbTip;
              HandData.isPresent := true;
              HandData.landmarks := Some landmarks |} in
         Some {| mode := if switch then nextMode (mode app) else mode app;
                 handData := newHandData;
                 hoveredTab := handleTabHover newHandData;
                 lastVideoTimeRef := lastVideoTimeRef app;
                 lastSwitchTimeRef :=
                   if switch then now else lastSwitchTimeRef app |}.
Proof.
  intros Hlen.
  do 21 (destruct landmarks as [|? landmarks]; [simpl in Hlen; lia|]).
  do 7 eexists. repeat split; reflexivity.
Qed.

Lemma detectsOk_length (landmarks : list Landmark.t) :
  detectsOk landmarks = true -> (20 < length landmarks)%nat.
Proof.
  unfold detectsOk. intros Hok.
  destruct (landmarks !! 20%nat) as [p|] eqn:E.
  - apply lookup_lt_Some in E. exact E.
  - repeat match type of Hok with
           | context [match ?o with _ => _ end] => destruct o
           end; discriminate.
Qed.

(** What [loop] does on a processed frame that shows the OK gesture. *)
Lemma loop_ok_gesture (app : App) (fr : Frame) (landmarks : list Landmark.t) :
  processed app fr = true ->
  detectedHand fr = Some landmarks ->
  detectsOk landmarks = true ->
  exists app',
    loop app fr = Some app'
    /\ mode app' = (if (Date_now fr - lastSwitchTimeRef app >? 1500)%Z
                    then nextMode (mode app) else mode app)
    /\ lastSwitchTimeRef app'
       = (if (Date_now fr - lastSwitchTimeRef app >? 1500)%Z
          then Date_now fr else lastSwitchTimeRef app).
Proof.
  intros Hp Hd Hok.
  destruct (processed_video _ _ Hp) as [v Hv].
  rewrite (loop_detected _ _ _ _ Hv Hp Hd).
  destruct (trackHand_Some (setLastVideoTime app (currentTime v))
              (Date_now fr) landmarks (detectsOk_length _ Hok))
    as (kp & w & t & i & m & r & p & _ & E0 & E4 & E8 & E12 & E16 & E20 & ->).
  unfold detectsOk in Hok. rewrite E0, E4, E8, E12, E16, E20 in Hok.
  rewrite Hok. simpl. eexists. split; [reflexivity|]. split; reflexivity.
Qed.

Lemma emitsModeSwitch_loop (app : App) (fr : Frame) :
  emitsModeSwitch app fr = true ->
  exists app',
    loop app fr = Some app'
    /\ mode app' = nextMode (mode app)
    /\ lastSwitchTimeRef app' = Date_now fr.
Proof.
  unfold emitsModeSwitch. intros He.
  apply andb_true_iff in He as [Hp He].
  destruct (detectedHand fr) as [landmarks|] eqn:Hd; [|discriminate].
  apply andb_true_iff in He as [Hok Ht].
  destruct (loop_ok_gesture app fr landmarks Hp Hd Hok) as (app' & -> & Hm & Hl).
  rewrite Ht in Hm, Hl. eauto.
Qed.

(** A frame accepted by [okGestures] makes [loop] emit a ModeSwitch, and the
    frames after it are accepted from the state that [loop] returns. *)
Lemma okGestures_step (fr : Frame) (frames : list Frame) (app : App) :
  okGestures (fr :: frames) (lastVideoTimeRef app) (lastSwitchTimeRef app)
  = true ->
  exists app',
    loop app fr = Some app'
    /\ mode app' = nextMode (mode app)
    /\ lastSwitchTimeRef app' = Date_now fr
    /\ okGestures frames (lastVideoTimeRef app') (lastSwitchTimeRef app')
       = true.
Proof.
  cbn [okGestures]. intros Hok.
  destruct (video fr) as [v|] eqn:Hv; [|discriminate].
  destruct (detectedHand fr) as [landmarks|] eqn:Hd; [|discriminate].
  apply andb_true_iff in Hok as [Hok Hrest].
  apply andb_true_iff in Hok as [Hok Hgap].
  apply andb_true_iff in Hok as [Hproc Hdet].
  assert (processed app fr = true) as Hp by (unfold processed; now rewrite Hv).
  assert (emitsModeSwitch app fr = true) as He.
  { unfold emitsModeSwitch. now rewrite Hp, Hd, Hdet, Hgap. }
  destruct (emitsModeSwitch_loop app fr He) as (app' & E & Hm & Hl).
  exists app'. split; [exact E|]. split; [exact Hm|]. split; [exact Hl|].
  rewrite Hl.
  assert (lastVideoTimeRef app' = currentTime v) as ->; [|exact Hrest].
  rewrite (loop_detected _ _ _ _ Hv Hp Hd) in E.
  destruct (trackHand_Some (setLastVideoTime app (currentTime v))
              (Date_now fr) landmarks (detectsOk_length _ Hdet))
    as (kp & w & t & i & m & r & p & _ & _ & _ & _ & _ & _ & _ & E').
  rewrite E' in E. injection E as <-. reflexivity.
Qed.

End DetectionFacts.

(** C3, as amended: on a processed frame that shows the OK gesture, the mode
    advances and the debounce timer is set to the current time when MORE than
    1500 ms have passed since the last switch; when at most 1500 ms have
    passed, the mode and the timer stay as they are. *)
Theorem ok_gesture_debounce `{JSRuntime} (app : App) (fr : Frame)
    (landmarks : list Landmark.t) :
  processed app fr = true ->
  detectedHand fr = Some landmarks ->
  detectsOk landmarks = true ->
  exists app',
    loop app fr = Some app'
    /\ ((1500 < Date_now fr - lastSwitchTimeRef app)%Z ->
        mode app' = nextMode (mode app)
        /\ lastSwitchTimeRef app' = Date_now fr)
    /\ ((Date_now fr - lastSwitchTimeRef app <= 1500)%Z ->
        mode app' = mode app
        /\ lastSwitchTimeRef app' = lastSwitchTimeRef app).
Proof.
  intros Hp Hd Hok.
  destruct (loop_ok_gesture app fr landmarks Hp Hd Hok) as (app' & E & Hm & Hl).
  exists app'. split; [exact E|].
  rewrite Hm, Hl. split; intros Ht.
  - assert ((Date_now fr - lastSwitchTimeRef app >? 1500)%Z = true) as ->
      by (apply Z.gtb_lt; exact Ht).
    split; reflexivity.
  - assert ((Date_now fr - lastSwitchTimeRef app >? 1500)%Z = false) as ->.
    { rewrite Z.gtb_ltb. apply Z.ltb_ge. exact Ht. }
    split; reflexivity.
Qed.

Lemma ok_gesture_debounce_witness :
  exists app',
    @loop (constRuntime 0) switchedApp
      (frameAt 13 [okHand] 1700000001501) = Some app'
    /\ ((1500 < 1700000001501 - 1700000000000)%Z ->
        mode app' = RAIN /\ lastSwitchTimeRef app' = 1700000001501%Z)
    /\ ((1700000001501 - 1700000000000 <= 1500)%Z ->
        mode app' = SNOW /\ lastSwitchTimeRef app' = 1700000000000%Z).
Proof.
  apply (@ok_gesture_debounce (constRuntime 0) switchedApp
           (frameAt 13 [okHand] 1700000001501) okHand);
    vm_compute; reflexivity.
Defined.

(** C3 as stated fails when exactly 1500 ms have passed: the OK gesture is
    detected, at least 1500 ms have elapsed, and yet no ModeSwitch is emitted
    and the timer is not reset. *)
Lemma debounce_at_1500_counterexample :
  let app := switchedApp in
  let fr := frameAt 13 [okHand] 1700000001500 in
  processed app fr = true
  /\ @detectsOk (constRuntime 0) okHand = true
  /\ (Date_now fr - lastSwitchTimeRef app >= 1500)%Z
  /\ exists app',
       @loop (constRuntime 0) app fr = Some app'
       /\ mode app' = mode app
       /\ mode app' <> nextMode (mode app)
       /\ lastSwitchTimeRef app' <> Date_now fr.
Proof.
  repeat split; try (vm_compute; congruence).
  eexists. split; [vm_compute; reflexivity|].
  repeat split; vm_compute; congruence.
Qed.

(** When [Math.sqrt] returns a square root of the sum of the squares, the
    pinch is a comparison of the squared distance with 0.06 squared. *)
Lemma isPinching_squared `{JSRuntime} (indexTip thumbTip : Landmark.t) :
  let dx := Landmark.x indexTip - Landmark.x thumbTip in
  let dy := Landmark.y indexTip - Landmark.y thumbTip in
  0 <= Math_sqrt (dx * dx + dy * dy) ->
  Math_sqrt (dx * dx + dy * dy) * Math_sqrt (dx * dx + dy * dy)
  == dx * dx + dy * dy ->
  isPinching indexTip thumbTip = true <-> dx * dx + dy * dy < 0.0036.
Proof.
  intros dx dy Hpos Hsq. unfold isPinching, pinchDistance. fold dx dy.
  rewrite Qltb_lt.
  set (a := dx * dx + dy * dy) in *. set (d := Math_sqrt a) in *.
  clearbody d a. split; intros Hlt; nra.
Qed.

(** C4, as amended: with a detected hand, the published pinch distance is the
    distance in the image plane between the index fingertip, landmark 8, and
    the thumb fingertip, landmark 4 (the Euclidean distance of their x and y
    coordinates, the depth z is not used), and isPinching holds if and only
    if that distance is strictly less than 0.06; when [Math.sqrt] returns
    the root, that is when the squared distance is less than 0.0036. *)
Theorem pinch_detection `{JSRuntime} (app : App) (fr : Frame)
    (landmarks : list Landmark.t) :
  processed app fr = true ->
  detectedHand fr = Some landmarks ->
  length landmarks = 21%nat ->
  exists app' indexTip thumbTip,
    loop app fr = Some app'
    /\ landmarks !! 8%nat = Some indexTip
    /\ landmarks !! 4%nat = Some thumbTip
    /\ HandData.pinchDistance (handData app')
       = imagePlaneDistance indexTip thumbTip
    /\ (HandData.isPinching (handData app') = true
        <-> HandData.pinchDistance (handData app') < 0.06)
    /\ (0 <= imagePlaneDistance indexTip thumbTip ->
        imagePlaneDistance indexTip thumbTip
        * imagePlaneDistance indexTip thumbTip
        == (Landmark.x indexTip - Landmark.x thumbTip) ^ 2
           + (Landmark.y indexTip - Landmark.y thumbTip) ^ 2 ->
        (HandData.isPinching (handData app') = true
         <-> (Landmark.x indexTip - Landmark.x thumbTip) ^ 2
             + (Landmark.y indexTip - Landmark.y thumbTip) ^ 2 < 0.0036)).
Proof.
  intros Hp Hd Hlen.
  destruct (processed_video _ _ Hp) as [v Hv].
  rewrite (loop_detected _ _ _ _ Hv Hp Hd).
  destruct (trackHand_Some (setLastVideoTime app (currentTime v))
              (Date_now fr) landmarks ltac:(lia))
    as (kp & w & t & i & m & r & p & _ & _ & E4 & E8 & _ & _ & _ & ->).
  eexists _, i, t. split; [reflexivity|].
  split; [exact E8|]. split; [exact E4|]. cbn [handData HandData.pinchDistance
                                                 HandData.isPinching].
  split; [reflexivity|]. split; [apply Qltb_lt|].
  intros Hpos Hsq. unfold isPinching. rewrite Qltb_lt.
  change (pinchDistance i t) with (imagePlaneDistance i t).
  set (d := imagePlaneDistance i t) in *.
  set (s := (Landmark.x i - Landmark.x t) ^ 2
            + (Landmark.y i - Landmark.y t) ^ 2) in *.
  clearbody d s. split; intros Hlt; nra.
Qed.

Lemma pinch_detection_witness :
  exists app' indexTip thumbTip,
    @loop (constRuntime 0) initialApp (frameAt 1 [openHand] 1700000000000)
    = Some app'
    /\ openHand !! 8%nat = Some indexTip
    /\ openHand !! 4%nat = Some thumbTip
    /\ HandData.pinchDistance (handData app')
       = @imagePlaneDistance (constRuntime 0) indexTip thumbTip
    /\ (HandData.isPinching (handData app') = true
        <-> HandData.pinchDistance (handData app') < 0.06)
    /\ (HandData.isPinching (handData app') = true
        <-> (Landmark.x indexTip - Landmark.x thumbTip) ^ 2
            + (Landmark.y indexTip - Landmark.y thumbTip) ^ 2 < 0.0036).
Proof.
  destruct (@pinch_detection (constRuntime 0) initialApp
              (frameAt 1 [openHand] 1700000000000) openHand
              eq_refl eq_refl eq_refl)
    as (app' & i & t & E & E8 & E4 & Hd & Hp & Hsq).
  exists app', i, t.
  refine (conj E (conj E8 (conj E4 (conj Hd (conj Hp (Hsq _ _)))))).
  - vm_compute in E8, E4. injection E8 as <-. injection E4 as <-.
    vm_compute. discriminate.
  - vm_compute in E8, E4. injection E8 as <-. injection E4 as <-.
    vm_compute. reflexivity.
Defined.

(** C4 as stated fails for landmarks that differ in depth: the thumb tip of
    [deepHand] is at the Euclidean distance 0.5 from the index tip, and yet
    the published pinch distance is 0 and isPinching holds. *)
Lemma pinch_depth_counterexample :
  exists app' indexTip thumbTip,
    @loop (constRuntime 0) initialApp (frameAt 1 [deepHand] 1700000000000)
    = Some app'
    /\ deepHand !! 8%nat = Some indexTip
    /\ deepHand !! 4%nat = Some thumbTip
    /\ (Landmark.x indexTip - Landmark.x thumbTip) ^ 2
       + (Landmark.y indexTip - Landmark.y thumbTip) ^ 2
       + (Landmark.z indexTip - Landmark.z thumbTip) ^ 2 == 0.5 * 0.5
    /\ @euclideanDistance (constRuntime 0) indexTip thumbTip == 0.5
    /\ ~ @euclideanDistance (constRuntime 0) indexTip thumbTip < 0.06
    /\ HandData.pinchDistance (handData app') == 0
    /\ ~ HandData.pinchDistance (handData app')
         == @euclideanDistance (constRuntime 0) indexTip thumbTip
    /\ HandData.isPinching (handData app') = true.
Proof.
  eexists _, _, _. split; [vm_compute; reflexivity|].
  split; [reflexivity|]. split; [reflexivity|].
  repeat split; vm_compute; congruence.
Qed.

(** C8, as amended: the controller starts in JELLYFISH; three consecutive new
    frames that show the OK gesture, each more than 1500 ms after the one
    before it and the first more than 1500 ms after the last switch, each
    advance the mode along JELLYFISH -> SNOW -> RAIN -> JELLYFISH and set the
    debounce timer, so that the third brings the controller back to the mode
    it had. *)
Theorem mode_cycle `{JSRuntime} (app : App) (f1 f2 f3 : Frame) :
  okGestures [f1; f2; f3] (lastVideoTimeRef app) (lastSwitchTimeRef app)
  = true ->
  mode initialApp = JELLYFISH
  /\ exists a1 a2 a3,
       loop app f1 = Some a1
       /\ loop a1 f2 = Some a2
       /\ loop a2 f3 = Some a3
       /\ runLoop [f1; f2; f3] app = Some a3
       /\ mode a1 = nextMode (mode app)
       /\ mode a2 = nextMode (mode a1)
       /\ mode a3 = nextMode (mode a2)
       /\ mode a3 = mode app
       /\ ((mode app = JELLYFISH /\ mode a1 = SNOW /\ mode a2 = RAIN)
           \/ (mode app = SNOW /\ mode a1 = RAIN /\ mode a2 = JELLYFISH)
           \/ (mode app = RAIN /\ mode a1 = JELLYFISH /\ mode a2 = SNOW))
       /\ lastSwitchTimeRef a1 = Date_now f1
       /\ lastSwitchTimeRef a2 = Date_now f2
       /\ lastSwitchTimeRef a3 = Date_now f3.
Proof.
  intros Hok. split; [reflexivity|].
  destruct (okGestures_step f1 [f2; f3] app Hok) as (a1 & E1 & M1 & L1 & Hok1).
  destruct (okGestures_step f2 [f3] a1 Hok1) as (a2 & E2 & M2 & L2 & Hok2).
  destruct (okGestures_step f3 [] a2 Hok2) as (a3 & E3 & M3 & L3 & _).
  exists a1, a2, a3.
  split; [exact E1|]. split; [exact E2|]. split; [exact E3|].
  split; [cbn [runLoop]; rewrite E1; cbn; rewrite E2; cbn; rewrite E3;
          reflexivity|].
  split; [exact M1|]. split; [exact M2|]. split; [exact M3|].
  split; [rewrite M3, M2, M1; destruct (mode app); reflexivity|].
  split; [rewrite M2, M1; destruct (mode app); cbn; auto|].
  auto.
Qed.

Lemma mode_cycle_witness :
  mode initialApp = JELLYFISH
  /\ exists a1 a2 a3,
       @loop (constRuntime 0) initialApp (frameAt 1 [okHand] 1700000000000)
       = Some a1
       /\ @loop (constRuntime 0) a1 (frameAt 2 [okHand] 1700000001501)
          = Some a2
       /\ @loop (constRuntime 0) a2 (frameAt 3 [okHand] 1700000003002)
          = Some a3
       /\ @runLoop (constRuntime 0)
            [frameAt 1 [okHand] 1700000000000;
             frameAt 2 [okHand] 1700000001501;
             frameAt 3 [okHand] 1700000003002] initialApp = Some a3
       /\ mode a1 = nextMode (mode initialApp)
       /\ mode a2 = nextMode (mode a1)
       /\ mode a3 = nextMode (mode a2)
       /\ mode a3 = mode initialApp
       /\ ((mode initialApp = JELLYFISH /\ mode a1 = SNOW /\ mode a2 = RAIN)
           \/ (mode initialApp = SNOW /\ mode a1 = RAIN
               /\ mode a2 = JELLYFISH)
           \/ (mode initialApp = RAIN /\ mode a1 = JELLYFISH
               /\ mode a2 = SNOW))
       /\ lastSwitchTimeRef a1 = Date_now (frameAt 1 [okHand] 1700000000000)
       /\ lastSwitchTimeRef a2 = Date_now (frameAt 2 [okHand] 1700000001501)
       /\ lastSwitchTimeRef a3 = Date_now (frameAt 3 [okHand] 1700000003002).
Proof.
  apply (@mode_cycle (constRuntime 0) initialApp
           (frameAt 1 [okHand] 1700000000000)
           (frameAt 2 [okHand] 1700000001501)
           (frameAt 3 [okHand] 1700000003002)).
  vm_compute. reflexivity.
Defined.

(** C8 as stated fails for gestures exactly 1500 ms apart: each of the three
    frames shows the OK gesture at least 1500 ms after the one before it, the
    second one is not accepted, and the run from JELLYFISH ends in RAIN. *)
Lemma three_gestures_at_1500_counterexample :
  let f1 := frameAt 1 [okHand] 1700000000000 in
  let f2 := frameAt 2 [okHand] 1700000001500 in
  let f3 := frameAt 3 [okHand] 1700000003000 in
  mode initialApp = JELLYFISH
  /\ @detectsOk (constRuntime 0) okHand = true
  /\ (Date_now f1 - lastSwitchTimeRef initialApp >= 1500)%Z
  /\ (Date_now f2 - Date_now f1 >= 1500)%Z
  /\ (Date_now f3 - Date_now f2 >= 1500)%Z
  /\ exists a1 a2 a3,
       @loop (constRuntime 0) initialApp f1 = Some a1
       /\ @loop (constRuntime 0) a1 f2 = Some a2
       /\ @loop (constRuntime 0) a2 f3 = Some a3
       /\ @runLoop (constRuntime 0) [f1; f2; f3] initialApp = Some a3
       /\ mode a1 = SNOW
       /\ mode a2 = SNOW
       /\ mode a3 = RAIN
       /\ mode a3 <> mode initialApp.
Proof.
  cbv zeta. split; [reflexivity|]. split; [vm_compute; reflexivity|].
  split; [vm_compute; congruence|]. split; [vm_compute; congruence|].
  split; [vm_compute; congruence|].
  eexists _, _, _. split; [vm_compute; reflexivity|].
  split; [vm_compute; reflexivity|]. split; [vm_compute; reflexivity|].
  split; [vm_compute; reflexivity|].
  repeat split; vm_compute; congruence.
Qed.

(** C10: on a processed frame without a hand, the published pose keeps the
    x, y, isPinching and pinchDistance of the previous pose; isPresent
    becomes false, the landmarks are cleared, and the hovered tab is cleared. *)
Theorem no_hand_keeps_pose `{JSRuntime} (app : App) (fr : Frame) :
  processed app fr = true ->
  detectedHand fr = None ->
  exists app',
    loop app fr = Some app'
    /\ HandData.x (handData app') = HandData.x (handData app)
    /\ HandData.y (handData app') = HandData.y (handData app)
    /\ HandData.isPinching (handData app') = HandData.isPinching (handData app)
    /\ HandData.pinchDistance (handData app')
       = HandData.pinchDistance (handData app)
    /\ HandData.isPresent (handData app') = false
    /\ HandData.landmarks (handData app') = None
    /\ hoveredTab app' = None
    /\ mode app' = mode app
    /\ lastSwitchTimeRef app' = lastSwitchTimeRef app.
Proof.
  intros Hp Hd.
  destruct (processed_video _ _ Hp) as [v Hv].
  rewrite (loop_absent _ _ _ Hv Hp Hd).
  eexists. split; [reflexivity|]. repeat split.
Qed.

Lemma no_hand_keeps_pose_witness :
  exists app',
    @loop (constRuntime 0) switchedApp (frameAt 13 [] 1700000000040) = Some app'
    /\ HandData.x (handData app') = 0.5
    /\ HandData.y (handData app') = 0.8
    /\ HandData.isPinching (handData app') = true
    /\ HandData.pinchDistance (handData app') = 0
    /\ HandData.isPresent (handData app') = false
    /\ HandData.landmarks (handData app') = None
    /\ hoveredTab app' = None
    /\ mode app' = SNOW
    /\ lastSwitchTimeRef app' = 1700000000000%Z.
Proof.
  apply (@no_hand_keeps_pose (constRuntime 0) switchedApp
           (frameAt 13 [] 1700000000040));
    vm_compute; reflexivity.
Defined.

(** ** The mode switch seen by the Visualizer *)

Lemma AppMode_eqb_eq (a b : AppMode) : AppMode_eqb a b = true <-> a = b.
Proof. destruct a, b; simpl; split; congruence. Qed.

Lemma nextMode_changes (m : AppMode) : nextMode m <> m.
Proof. destruct m; discriminate. Qed.

(** Both kinds of transition hand the Visualizer a mode that differs from
    the one it had: an emitted ModeSwitch always, a selected tab when it is
    not the current one. *)
Lemma gesture_changes_mode `{JSRuntime} (app : App) (fr : Frame) :
  emitsModeSwitch app fr = true ->
  exists app', loop app fr = Some app' /\ mode app' <> mode app.
Proof.
  intros He. destruct (emitsModeSwitch_loop app fr He) as (app' & E & Hm & _).
  exists app'. split; [exact E|]. rewrite Hm. apply nextMode_changes.
Qed.

Lemma onTabSelect_mode (app : App) (m : AppMode) : mode (onTabSelect app m) = m.
Proof. reflexivity. Qed.

(** C7: when the Visualizer is given a mode that differs from the one it had,
    the particles, ripples and splashes are emptied, the edge-trigger flag is
    false and the snow ground is dropped (to be filled with the canvas height
    on the next snow frame); what is rendered next is what would be rendered
    from the initial state, so nothing of the outgoing theme persists. *)
Theorem mode_change_resets `{JSRuntime} (v : Visualizer) (mode' : AppMode)
    (handData : HandData.t) (canvas : Canvas) (time : Q) (n : nat) :
  mode' <> vmode v ->
  let r := modeEffect v mode' in
  particlesRef r = []
  /\ ripplesRef r = []
  /\ splashesRef r = []
  /\ wasOpenRef r = false
  /\ snowGroundRef r = None
  /\ initSnowGround SNOW canvas (snowGroundRef r)
     = Some (replicate (Z.to_nat (width canvas)) (num (height canvas)))
  /\ propsChange v mode' handData canvas time n
     = propsChange (mkVisualizer mode' handData initialRefs) mode' handData
         canvas time n.
Proof.
  intros Hne. unfold propsChange, modeEffect. simpl.
  destruct (AppMode_eqb (vmode v) mode') eqn:E.
  - apply AppMode_eqb_eq in E. congruence.
  - assert (AppMode_eqb mode' mode' = true) as -> by (now apply AppMode_eqb_eq).
    repeat split.
Qed.

(** ** Loops in the random monad *)

Lemma bind_eq {A B} (m : Rng A) (k : A -> Rng B) (n : nat) :
  bind m k n = k (fst (m n)) (snd (m n)).
Proof. unfold bind. destruct (m n). reflexivity. Qed.

Lemma forEachM_length {A} (body : A -> Rng A) (arr : list A) : forall n,
  length (fst (forEachM body arr n)) = length arr.
Proof.
  induction arr as [|p rest IH]; intros n; simpl; [reflexivity|].
  unfold bind. destruct (body p n) as [p' n1].
  specialize (IH n1). destruct (forEachM body rest n1) as [rest' n2].
  simpl in *. now rewrite IH.
Qed.

(** The element at index [i] after a [forEach] is the body applied to the
    element at index [i] before it. *)
Lemma forEachM_lookup {A} (body : A -> Rng A) (arr : list A) : forall n i a,
  arr !! i = Some a ->
  exists k, fst (forEachM body arr n) !! i = Some (fst (body a k)).
Proof.
  induction arr as [|p rest IH]; intros n i a Hi; [discriminate|].
  simpl. unfold bind. destruct (body p n) as [p' n1] eqn:Ep.
  destruct i as [|i]; simpl in Hi.
  - injection Hi as ->. exists n.
    destruct (forEachM body rest n1) as [rest' n2]. simpl. now rewrite Ep.
  - destruct (IH n1 i a Hi) as [k Hk]. exists k.
    destruct (forEachM body rest n1) as [rest' n2]. simpl in *. exact Hk.
Qed.

Lemma forEachM_Forall {A} (P : A -> Prop) (body : A -> Rng A) (arr : list A) :
  (forall a k, P (fst (body a k))) ->
  forall n, Forall P (fst (forEachM body arr n)).
Proof.
  intros Hbody. induction arr as [|p rest IH]; intros n; simpl.
  - constructor.
  - unfold bind. destruct (body p n) as [p' n1] eqn:Ep.
    specialize (IH n1). destruct (forEachM body rest n1) as [rest' n2].
    simpl in *. constructor; [|exact IH].
    specialize (Hbody p n). now rewrite Ep in Hbody.
Qed.

(** A loop that pushes one new element per round appends as many elements
    as it has rounds. *)
Lemma repeatM_push {A} (mk : Rng A) (k : nat) : forall (ps : list A) n,
  exists new,
    fst (repeatM k (fun ps => let* p := mk in ret (ps ++ [p])) ps n)
    = ps ++ new
    /\ length new = k
    /\ forall p, In p new -> exists m, p = fst (mk m).
Proof.
  induction k as [|k IH]; intros ps n; simpl.
  - exists []. rewrite app_nil_r. repeat split. intros p [].
  - unfold bind at 1. unfold bind at 1.
    destruct (mk n) as [p n1] eqn:Ep. unfold ret at 1.
    destruct (IH (ps ++ [p]) n1) as (new & E & Hlen & Hnew).
    exists (p :: new). rewrite E, <- app_assoc. simpl.
    repeat split; [now rewrite Hlen|].
    intros q [<-|Hq]; [|now apply Hnew].
    exists n. now rewrite Ep.
Qed.

(** ** The jellyfish simulation *)

Section JellyfishFacts.
Context `{JSRuntime}.
Hypothesis Hrandom : unit_random.

(** 3 or 4 creatures per spawn. *)
Lemma spawnCount_range (r : Q) :
  0 <= r -> r < 1 ->
  (3 <= Math_floor (r * 2) + 3 <= 4)%Z.
Proof.
  intros H0 H1. unfold Math_floor.
  pose proof (Qfloor_le (r * 2)) as Hlo.
  pose proof (Qlt_floor (r * 2)) as Hhi.
  assert (inject_Z (Qfloor (r * 2)) < inject_Z 2) as Hlt
    by (change (inject_Z 2) with 2; lra).
  assert (inject_Z 0 < inject_Z (Qfloor (r * 2) + 1)) as Hgt
    by (change (inject_Z 0) with 0; lra).
  rewrite <- Zlt_Qlt in Hlt, Hgt. lia.
Qed.

Lemma spawn_spec (handX handY : Q) (isOpen wasOpen : bool)
    (particles : list Jelly.t) (n : nat) :
  exists new,
    fst (spawn handX handY isOpen wasOpen particles n) = particles ++ new
    /\ Forall (fun j => Jelly.state j = Jelly.FOLLOWING) new
    /\ (new = []
        \/ (isOpen = true /\ wasOpen = false
            /\ (length particles < 20)%nat
            /\ (3 <= length new <= 4)%nat)).
Proof.
  unfold spawn.
  destruct (isOpen && negb wasOpen) eqn:Eedge;
    [|exists []; rewrite app_nil_r; auto].
  destruct (length particles <? 20)%nat eqn:Elen;
    [|exists []; rewrite app_nil_r; auto].
  unfold bind at 1, random at 1.
  destruct (repeatM_push (spawnJelly handX handY)
              (Z.to_nat (Math_floor (Math_random n * 2) + 3)) particles (S n))
    as (new & E & Hlen & Hnew).
  exists new. split; [exact E|]. split.
  - apply Forall_forall. intros j Hj.
    apply list_elem_of_In in Hj. destruct (Hnew j Hj) as [m ->]. reflexivity.
  - right. apply andb_true_iff in Eedge as [-> Ew].
    apply negb_true_iff in Ew. apply Nat.ltb_lt in Elen.
    destruct (Hrandom n) as [H0 H1].
    pose proof (spawnCount_range _ H0 H1). repeat split; auto; lia.
Qed.


Lemma stateManagement_length (handData : HandData.t) (isOpen wasOpen : bool)
    (particles : list Jelly.t) (n : nat) :
  length (fst (stateManagement handData isOpen wasOpen particles n))
  = length particles.
Proof.
  unfold stateManagement.
  destruct (negb isOpen && wasOpen || negb (HandData.isPresent handData));
    [apply forEachM_length | reflexivity].
Qed.


(** The number of creatures after a tick is the number after the spawn. *)
Lemma renderJellyfish_particles (canvas : Canvas) (handData : HandData.t)
    (time : Q) (particles : list Jelly.t) (wasOpen : bool) (n : nat) :
  exists new,
    length (fst (fst (renderJellyfish canvas handData time
                        (particles, wasOpen) n)))
    = length (particles ++ new)
    /\ (new = []
        \/ ((length particles < 20)%nat /\ (3 <= length new <= 4)%nat)).
Proof.
  unfold renderJellyfish.
  set (handX := if HandData.isPresent handData then _ else _).
  set (handY := if HandData.isPresent handData then _ else _).
  destruct (spawn_spec handX handY (isOpen handData) wasOpen particles n)
    as (new & E & _ & Hnew).
  exists new. split.
  - unfold bind at 1. destruct (spawn _ _ _ _ _ n) as [ps1 n1]. simpl in E.
    unfold bind at 1.
    pose proof (stateManagement_length handData (isOpen handData) wasOpen
                  ps1 n1) as L2.
    destruct (stateManagement _ _ _ ps1 n1) as [ps2 n2]. simpl in L2.
    unfold bind at 1.
    pose proof (forEachM_length (updateJelly canvas handX handY time) ps2 n2)
      as L3.
    destruct (forEachM _ ps2 n2) as [ps3 n3]. simpl in *. congruence.
  - destruct Hnew as [->|(_ & _ & Hl & Hc)]; [now left | right; auto].
Qed.

Lemma renderJellyfish_bound (canvas : Canvas) (handData : HandData.t)
    (time : Q) (st : list Jelly.t * bool) (n : nat) :
  (length (fst st) <= 23)%nat ->
  (length (fst (fst (renderJellyfish canvas handData time st n))) <= 23)%nat.
Proof.
  destruct st as [particles wasOpen]. intros Hb. simpl in Hb.
  destruct (renderJellyfish_particles canvas handData time particles wasOpen n)
    as (new & E & Hnew).
  rewrite E, length_app.
  destruct Hnew as [->|[Hl Hc]]; simpl; lia.
Qed.

End JellyfishFacts.


Section JellyfishStates.
Context `{JSRuntime}.

Lemma isOpen_absent (handData : HandData.t) :
  HandData.isPresent handData = false -> isOpen handData = false.
Proof. unfold isOpen. now intros ->. Qed.

Lemma release_following (p : Jelly.t) (k : nat) :
  Jelly.state p = Jelly.FOLLOWING ->
  let p' := fst (release p k) in
  Jelly.state p' = Jelly.FREE
  /\ Jelly.vx p' = (Math_random k - 0.5) * 6
  /\ Jelly.vy p' = (Math_random (S k) - 0.5) * 6.
Proof. unfold release. intros ->. simpl. auto. Qed.




(** What the state management does to the creature at index [i]. *)
Lemma stateManagement_following (handData : HandData.t) (wasOpen : bool)
    (particles : list Jelly.t) (n i : nat) (j : Jelly.t) :
  (isOpen handData = false /\ wasOpen = true)
  \/ HandData.isPresent handData = false ->
  particles !! i = Some j ->
  Jelly.state j = Jelly.FOLLOWING ->
  exists j' k,
    fst (stateManagement handData (isOpen handData) wasOpen particles n) !! i
    = Some j'
    /\ Jelly.state j' = Jelly.FREE
    /\ Jelly.vx j' = (Math_random k - 0.5) * 6
    /\ Jelly.vy j' = (Math_random (S k) - 0.5) * 6.
Proof.
  intros Hcond Hi Hfol. unfold stateManagement.
  assert (negb (isOpen handData) && wasOpen
          || negb (HandData.isPresent handData) = true) as ->.
  { destruct Hcond as [[-> ->] | ->]; simpl; auto using orb_true_r. }
  destruct (forEachM_lookup release particles n i j Hi) as [k Hk].
  destruct (release_following j k Hfol) as (Hs & Hx & Hy).
  eauto 10.
Qed.


End JellyfishStates.

(** C1, as amended: along every sequence of ticks of the jellyfish
    simulation the number of live creatures never exceeds 23 (a spawn adds 3
    or 4 creatures, and only while fewer than 20 are alive). *)
Theorem jellyfish_count_bound `{JSRuntime} (ticks : list Tick)
    (st : list Jelly.t * bool) (n : nat) :
  unit_random ->
  (length (fst st) <= 23)%nat ->
  (length (fst (fst (runJellyfish ticks st n))) <= 23)%nat.
Proof.
  intros Hr. revert st n.
  induction ticks as [|t ticks IH]; intros st n Hb.
  - exact Hb.
  - cbn [runJellyfish]. rewrite bind_eq. apply IH.
    now apply renderJellyfish_bound.
Qed.

Lemma jellyfish_count_bound_witness :
  (length (fst (fst (@runJellyfish (constRuntime 0) (openCloseTicks 7)
                       ([], false) 0%nat))) <= 23)%nat.
Proof.
  apply (@jellyfish_count_bound (constRuntime 0) (openCloseTicks 7)
           ([], false) 0%nat).
  - intros k. simpl. lra.
  - simpl. lia.
Defined.

(** C1 as stated fails: seven rising edges of the open hand, each spawning
    three creatures, leave 21 live creatures. *)
Lemma jellyfish_count_counterexample :
  @unit_random (constRuntime 0)
  /\ length (fst (fst (@runJellyfish (constRuntime 0) (openCloseTicks 7)
                         ([], false) 0%nat))) = 21%nat
  /\ ~ (21 <= 20)%nat.
Proof.
  split; [intros k; simpl; lra|].
  split; [vm_compute; reflexivity | lia].
Qed.

(** The bound 23 is reached: four spawns of four creatures, one of three
    (the draw at position 29972 of the stream is 0), and a last one of four. *)
Example jellyfish_reaches_23 :
  length (fst (fst (@runJellyfish (spikeRuntime 29972) (openCloseTicks 6)
                      ([], false) 0%nat))) = 23%nat.
Proof. vm_compute. reflexivity. Qed.

(** ** The snow simulation *)

Section SnowflakeFacts.
Context `{JSRuntime}.

(** The fields of a new flake in terms of the six draws it makes. *)
Lemma createSnowflake_eq (x y : Q) (n : nat) :
  createSnowflake x y n
  = (let isBig := Math_random n >? 0.95 in
     {| Snowflake.x := x;
        Snowflake.y := y;
        Snowflake.vx := (Math_random (1 + n) - 0.5)
                        * (if isBig then 0.5 else 2.0);
        Snowflake.vy := if isBig then 2.2 + Math_random (2 + n) * 1.5
                        else 0.3 + Math_random (2 + n) * 0.8;
        Snowflake.size := if isBig then 8 + Math_random (3 + n) * 12
                          else 1 + Math_random (3 + n) * 3;
        Snowflake.spin := Math_random (4 + n) * Math_PI;
        Snowflake.spinSpeed := (Math_random (5 + n) - 0.5) * 0.05;
        Snowflake.opacity := if isBig then 0.95 else 0.85;
        Snowflake.isParticle := negb isBig |}, (6 + n)%nat).
Proof. reflexivity. Qed.

Lemma createSnowflake_size (x y : Q) (n : nat) :
  unit_random -> 1 <= Snowflake.size (fst (createSnowflake x y n)).
Proof.
  intros Hr. rewrite createSnowflake_eq. simpl.
  destruct (Hr (3 + n)%nat) as [H0 H1]. simpl in H0, H1.
  destruct (Math_random n >? 0.95); lra.
Qed.

End SnowflakeFacts.

(** C2, as amended: a flake is large exactly when its first random draw
    exceeds 0.95, a part of the unit interval of length 5%, and small
    otherwise (95%); a large flake falls by 2.2 to 3.7 per tick, a small one
    by 0.3 to 1.1, so every large flake falls FASTER than every small one. *)
Theorem snowflake_classes `{JSRuntime} (x1 y1 x2 y2 : Q) (n1 n2 : nat) :
  unit_random ->
  let p := fst (createSnowflake x1 y1 n1) in
  let q := fst (createSnowflake x2 y2 n2) in
  (Snowflake.isParticle p = false <-> 0.95 < Math_random n1)
  /\ (Snowflake.isParticle p = true <-> Math_random n1 <= 0.95)
  /\ 1 - 0.95 == 5 / 100
  /\ 0.95 - 0 == 95 / 100
  /\ (Snowflake.isParticle p = false ->
      2.2 <= Snowflake.vy p /\ Snowflake.vy p < 3.7)
  /\ (Snowflake.isParticle p = true ->
      0.3 <= Snowflake.vy p /\ Snowflake.vy p < 1.1)
  /\ (Snowflake.isParticle p = false ->
      Snowflake.isParticle q = true ->
      Snowflake.vy q < Snowflake.vy p).
Proof.
  intros Hr p q. subst p q. rewrite !createSnowflake_eq. simpl.
  destruct (Hr (2 + n1)%nat) as [Hp0 Hp1], (Hr (2 + n2)%nat) as [Hq0 Hq1].
  simpl in Hp0, Hp1, Hq0, Hq1.
  destruct (Math_random n1 >? 0.95) eqn:E1;
    [apply Qgtb_gt in E1 | apply Qgtb_le in E1];
    (destruct (Math_random n2 >? 0.95) eqn:E2;
     [apply Qgtb_gt in E2 | apply Qgtb_le in E2]);
    simpl; repeat split; intros; try discriminate; try lra.
Qed.

Lemma snowflake_classes_witness :
  let rt := listRuntime [0.96875; 0.5; 0.5; 0.5; 0.5; 0.5; 0] 0.5 in
  let p := fst (@createSnowflake rt 100 (-20) 0%nat) in
  let q := fst (@createSnowflake rt 200 (-20) 6%nat) in
  (Snowflake.isParticle p = false <-> 0.95 < @Math_random rt 0%nat)
  /\ (Snowflake.isParticle p = true <-> @Math_random rt 0%nat <= 0.95)
  /\ 1 - 0.95 == 5 / 100
  /\ 0.95 - 0 == 95 / 100
  /\ (Snowflake.isParticle p = false ->
      2.2 <= Snowflake.vy p /\ Snowflake.vy p < 3.7)
  /\ (Snowflake.isParticle p = true ->
      0.3 <= Snowflake.vy p /\ Snowflake.vy p < 1.1)
  /\ (Snowflake.isParticle p = false ->
      Snowflake.isParticle q = true ->
      Snowflake.vy q < Snowflake.vy p).
Proof.
  apply (@snowflake_classes
           (listRuntime [0.96875; 0.5; 0.5; 0.5; 0.5; 0.5; 0] 0.5)
           100 (-20) 200 (-20) 0%nat 6%nat).
  intros k. simpl.
  do 7 (destruct k as [|k]; [simpl; lra|]).
  unfold nth; destruct k; simpl; lra.
Defined.

(** C2 as stated fails: a large flake (first draw 0.96875) falls by 2.95 per
    tick, a small one (first draw 0) by 0.7, so the large flake is not the
    slower one. *)
Lemma large_flake_counterexample :
  let rt := listRuntime [0.96875; 0.5; 0.5; 0.5; 0.5; 0.5; 0] 0.5 in
  let large := fst (@createSnowflake rt 100 (-20) 0%nat) in
  let small := fst (@createSnowflake rt 200 (-20) 6%nat) in
  Snowflake.isParticle large = false
  /\ Snowflake.isParticle small = true
  /\ Snowflake.vy large == 2.95
  /\ Snowflake.vy small == 0.7
  /\ ~ (Snowflake.vy large < Snowflake.vy small).
Proof.
  repeat split. vm_compute. discriminate.
Qed.

Lemma fold_left_invariant {A B} (P : A -> Prop) (f : A -> B -> A) (l : list B) :
  (forall acc b, In b l -> P acc -> P (f acc b)) ->
  forall acc, P acc -> P (fold_left f l acc).
Proof.
  induction l as [|b l IH]; intros Hf acc Hacc; simpl; [exact Hacc|].
  apply IH.
  - intros acc' b' Hin. apply Hf. now right.
  - apply Hf; [now left | exact Hacc].
Qed.

Lemma for_down_invariant {S} (P : S -> Prop) (body : nat -> S -> S) :
  (forall i s, P s -> P (body i s)) ->
  forall n s, P s -> P (for_down n body s).
Proof.
  intros Hbody. induction n as [|n IH]; intros s Hs; simpl; auto.
Qed.

Lemma In_range (lo hi r : Z) : In r (range lo hi) -> (lo <= r <= hi)%Z.
Proof.
  unfold range. intros Hin. apply list_elem_of_In, elem_of_seqZ in Hin. lia.
Qed.

Lemma Math_abs_bounds (r radius : Z) :
  (- radius <= r <= radius)%Z -> 0 <= Math_abs r /\ Math_abs r <= num radius.
Proof.
  intros Hr. unfold Math_abs, num. split.
  - change 0 with (inject_Z 0). rewrite <- Zle_Qle. lia.
  - rewrite <- Zle_Qle. lia.
Qed.

(** The ratio of the triangular and of the linear falloff lies in [0, 1]. *)
Lemma falloff_bounds (r radius : Z) :
  (1 <= radius)%Z -> (- radius <= r <= radius)%Z ->
  0 <= 1 - Math_abs r / num radius /\ 1 - Math_abs r / num radius <= 1.
Proof.
  intros Hpos Hr. destruct (Math_abs_bounds r radius Hr) as [Ha0 Ha1].
  assert (0 < num radius) as Hrad.
  { unfold num. change 0 with (inject_Z 0). rewrite <- Zlt_Qlt. lia. }
  assert (Math_abs r / num radius <= 1) as Hle
    by (apply Qle_shift_div_r; [exact Hrad | lra]).
  assert (0 <= Math_abs r / num radius) as Hge
    by (apply Qle_shift_div_l; [exact Hrad | lra]).
  lra.
Qed.

Lemma mound_inRange (canvas : Canvas) (gx : Z) (size H : Q) (g : list Q) :
  1 <= size -> inRange H g -> inRange H (mound canvas gx size g).
Proof.
  intros Hsize. unfold mound.
  assert (1 <= Math_floor (size * 2))%Z as Hrad.
  { unfold Math_floor. rewrite <- (Qfloor_Z 1).
    apply Qfloor_resp_le. change (inject_Z 1) with 1. lra. }
  apply fold_left_invariant. intros acc r Hin Hacc.
  apply In_range in Hin.
  destruct ((0 <=? gx + r)%Z && (gx + r <? width canvas)%Z); [|exact Hacc].
  destruct (acc !! Z.to_nat (gx + r)) as [v|] eqn:Ev; [|exact Hacc].
  apply Forall_insert; [exact Hacc|].
  destruct (proj1 (Forall_lookup _ _) Hacc _ _ Ev) as [Hv0 HvH]. cbv beta in *.
  destruct (falloff_bounds r _ Hrad Hin) as [Hf0 Hf1].
  assert (0 <= (1 - Math_abs r / num (Math_floor (size * 2))) * (size * 0.5))
    as Hc by (apply Qmult_le_0_compat; lra).
  destruct (_ <? 0) eqn:E; [lra|]. apply Qltb_ge in E. lra.
Qed.

Lemma melt_inRange (canvas : Canvas) (hx : Z) (g : list Q) :
  inRange (num (height canvas)) g ->
  inRange (num (height canvas)) (melt canvas hx g).
Proof.
  unfold melt. apply fold_left_invariant. intros acc dx Hin Hacc.
  apply In_range in Hin.
  destruct ((0 <=? hx + dx)%Z && (hx + dx <? width canvas)%Z); [|exact Hacc].
  destruct (acc !! Z.to_nat (hx + dx)) as [v|] eqn:Ev; [|exact Hacc].
  apply Forall_insert; [exact Hacc|].
  destruct (proj1 (Forall_lookup _ _) Hacc _ _ Ev) as [Hv0 HvH]. cbv beta in *.
  destruct (falloff_bounds dx 50 ltac:(lia) Hin) as [Hf0 Hf1].
  destruct (Q.min_spec (num (height canvas))
              (v + 3 * (1 - Math_abs dx / num 50))) as [[Hlt ->] | [Hle ->]]; lra.
Qed.

Lemma initSnowGround_ok (canvas : Canvas) (ground : option (list Q)) :
  (0 <= height canvas)%Z ->
  groundOk (num (height canvas)) ground ->
  groundOk (num (height canvas)) (initSnowGround SNOW canvas ground).
Proof.
  intros HH Hg.
  assert (inRange (num (height canvas))
            (replicate (Z.to_nat (width canvas)) (num (height canvas)))) as Hfill.
  { apply Forall_replicate. split; [|lra].
    unfold num. change 0 with (inject_Z 0). now rewrite <- Zle_Qle. }
  unfold initSnowGround. destruct ground as [g|]; [|exact Hfill].
  destruct (Z.of_nat (length g) =? width canvas)%Z; [exact Hg | exact Hfill].
Qed.

Lemma foldM_append {A B} (P : A -> Prop) (body : B -> list A -> Rng (list A)) :
  (forall b ps n, exists p, fst (body b ps n) = ps ++ [p] /\ P p) ->
  forall (l : list B) (ps : list A) n,
    exists new,
      fst (foldM body l ps n) = ps ++ new
      /\ length new = length l
      /\ Forall P new.
Proof.
  intros Hbody. induction l as [|b l IH]; intros ps n.
  - exists []. simpl. rewrite app_nil_r. auto.
  - cbn [foldM]. rewrite bind_eq.
    destruct (Hbody b ps n) as (p & -> & Hp).
    destruct (IH (ps ++ [p]) (snd (body b ps n))) as (new & -> & Hlen & Hnew).
    exists (p :: new). rewrite <- app_assoc. simpl. auto.
Qed.

Section SnowFacts.
Context `{rt : JSRuntime}.
Hypothesis Hrandom : unit_random.

Lemma ambientSnow_sizes (canvas : Canvas) (particles : list Snowflake.t)
    (n : nat) :
  Forall sizeOk particles ->
  Forall sizeOk (fst (ambientSnow canvas particles n)).
Proof.
  intros Hps. unfold ambientSnow.
  match goal with
  | |- context [foldM ?body ?idx particles n] =>
      assert (forall b ps k,
                 exists p, fst (body b ps k) = ps ++ [p] /\ sizeOk p) as Hbody;
      [|destruct (foldM_append sizeOk body Hbody idx particles n)
          as (new & -> & _ & Hnew)]
  end.
  - intros b ps k. rewrite !bind_eq. eexists. split; [reflexivity|].
    now apply createSnowflake_size.
  - apply Forall_app. split; [exact Hps | exact Hnew].
Qed.

Lemma handSnow_sizes (isOpen : bool) (handX handY : Q)
    (particles : list Snowflake.t) (n : nat) :
  Forall sizeOk particles ->
  Forall sizeOk (fst (handSnow isOpen handX handY particles n)).
Proof.
  intros Hps. unfold handSnow. destruct isOpen; [|exact Hps].
  match goal with
  | |- context [foldM ?body ?idx particles n] =>
      assert (forall b ps k,
                 exists p, fst (body b ps k) = ps ++ [p] /\ sizeOk p) as Hbody;
      [|destruct (foldM_append sizeOk body Hbody idx particles n)
          as (new & -> & _ & Hnew)]
  end.
  - intros b ps k. rewrite !bind_eq. eexists. split; [reflexivity|].
    now apply createSnowflake_size.
  - apply Forall_app. split; [exact Hps | exact Hnew].
Qed.

Lemma updateSnowflake_inv (canvas : Canvas) (H : Q) (i : nat)
    (st : list Snowflake.t * option (list Q)) :
  snowInv H st -> snowInv H (updateSnowflake canvas i st).
Proof.
  destruct st as [particles ground]. intros [Hps Hg]. simpl in Hps, Hg.
  unfold updateSnowflake.
  destruct (particles !! i) as [p|] eqn:Ep; [|split; assumption].
  pose proof (proj1 (Forall_lookup _ _) Hps _ _ Ep) as Hp.
  match goal with
  | |- snowInv _ (if ?c then _ else _) => destruct c
  end.
  - split; simpl.
    + now apply Forall_delete.
    + destruct ground as [g|]; simpl; [|exact I].
      apply mound_inRange; [exact Hp | exact Hg].
  - split; simpl; [|exact Hg].
    apply Forall_insert; [exact Hps | exact Hp].
Qed.

Lemma meltGround_ok (canvas : Canvas) (handData : HandData.t)
    (ground : option (list Q)) :
  groundOk (num (height canvas)) ground ->
  groundOk (num (height canvas)) (meltGround canvas handData ground).
Proof.
  intros Hg. unfold meltGround. destruct ground as [g|]; [|exact I].
  destruct (HandData.isPresent handData); [|exact Hg].
  destruct (_ >? _); [|exact Hg].
  simpl. now apply melt_inRange.
Qed.

Lemma renderSnow_inv (canvas : Canvas) (handData : HandData.t)
    (st : list Snowflake.t * option (list Q)) (n : nat) :
  snowInv (num (height canvas)) st ->
  snowInv (num (height canvas)) (fst (renderSnow canvas handData st n)).
Proof.
  destruct st as [particles ground]. intros [Hps Hg]. simpl in Hps, Hg.
  unfold renderSnow. rewrite !bind_eq.
  set (ps1 := fst (ambientSnow canvas particles n)).
  set (n1 := snd (ambientSnow canvas particles n)).
  set (ps2 := fst (handSnow _ _ _ ps1 n1)).
  set (n2 := snd (handSnow _ _ _ ps1 n1)).
  assert (snowInv (num (height canvas))
            (for_down (length ps2) (updateSnowflake canvas) (ps2, ground)))
    as Hloop.
  { apply for_down_invariant.
    - intros i s. apply updateSnowflake_inv.
    - split; simpl; [|exact Hg].
      apply handSnow_sizes, ambientSnow_sizes, Hps. }
  destruct (for_down _ _ _) as [ps3 g3]. destruct Hloop as [Hps3 Hg3].
  split; simpl; [exact Hps3|]. now apply meltGround_ok.
Qed.

Lemma runSnow_inv (H : Z) (ticks : list Tick) :
  (0 <= H)%Z ->
  Forall (fun t => height (tcanvas t) = H) ticks ->
  forall (st : list Snowflake.t * option (list Q)) (n : nat),
    snowInv (num H) st ->
    snowInv (num H) (fst (runSnow ticks st n)).
Proof.
  intros HH Hticks. induction Hticks as [|t ticks Ht _ IH]; intros st n Hst.
  - exact Hst.
  - cbn [runSnow]. rewrite bind_eq. apply IH.
    rewrite <- Ht. apply renderSnow_inv. destruct Hst as [Hps Hg].
    split; simpl; [exact Hps|].
    apply initSnowGround_ok; rewrite Ht; assumption.
Qed.

End SnowFacts.

(** C5: on a canvas of fixed height, a landing flake (of a size that
    [createSnowflake] produces, at least 1) and a melting hand keep every
    entry of the ground between 0 and the canvas height, and so does every
    sequence of snow frames. *)
Theorem snow_ground_bounds `{rt : JSRuntime} (H : Z) (ticks : list Tick)
    (st : list Snowflake.t * option (list Q)) (n : nat) :
  unit_random ->
  (0 <= H)%Z ->
  Forall (fun t => height (tcanvas t) = H) ticks ->
  Forall (fun p => 1 <= Snowflake.size p) (fst st) ->
  groundOk (num H) (snd st) ->
  (forall canvas gx size g,
      1 <= size -> inRange (num H) g ->
      inRange (num H) (mound canvas gx size g))
  /\ (forall canvas hx g,
         height canvas = H -> inRange (num H) g ->
         inRange (num H) (melt canvas hx g))
  /\ groundOk (num H) (snd (fst (runSnow ticks st n))).
Proof.
  intros Hr HH Hticks Hps Hg. split; [|split].
  - intros canvas gx size g. apply mound_inRange.
  - intros canvas hx g <-. apply melt_inRange.
  - apply (runSnow_inv Hr H ticks HH Hticks st n). split; assumption.
Qed.

(** On the sample run the flake lands at column 640 on the first frame and
    lowers the entry from 700 to 698.75; on the second frame the hand melts
    the snow and raises the entry to 701.75. *)
Lemma snow_ground_bounds_witness :
  ((forall canvas gx size g,
       1 <= size -> inRange (num 720) g ->
       inRange (num 720) (mound canvas gx size g))
   /\ (forall canvas hx g,
          height canvas = 720%Z -> inRange (num 720) g ->
          inRange (num 720) (melt canvas hx g))
   /\ groundOk (num 720)
        (snd (fst (@runSnow (constRuntime 0.5)
                     [mkTick sampleCanvas absentPose 0;
                      mkTick sampleCanvas lowPose 0]
                     ([landingFlake], Some snowyGround) 0%nat))))
  /\ (exists v0 v1 v2,
         groundAt ([landingFlake], Some snowyGround) 640 = Some v0
         /\ groundAt (fst (@runSnow (constRuntime 0.5)
                             [mkTick sampleCanvas absentPose 0]
                             ([landingFlake], Some snowyGround) 0%nat)) 640
            = Some v1
         /\ groundAt (fst (@runSnow (constRuntime 0.5)
                             [mkTick sampleCanvas absentPose 0;
                              mkTick sampleCanvas lowPose 0]
                             ([landingFlake], Some snowyGround) 0%nat)) 640
            = Some v2
         /\ v0 == 700 /\ v1 == 698.75 /\ v2 == 701.75).
Proof.
  split.
  - apply (@snow_ground_bounds (constRuntime 0.5) 720
             [mkTick sampleCanvas absentPose 0; mkTick sampleCanvas lowPose 0]
             ([landingFlake], Some snowyGround) 0%nat).
    + intros k. simpl. lra.
    + lia.
    + repeat constructor.
    + repeat constructor. discriminate.
    + apply Forall_replicate. split; discriminate.
  - eexists _, _, _. split; [vm_compute; reflexivity|].
    split; [vm_compute; reflexivity|]. split; [vm_compute; reflexivity|].
    repeat split.
Defined.

(** ** The rain simulation *)

Section RainFacts.
Context `{rt : JSRuntime}.

Lemma dropSplashes_spec (canvas : Canvas) (p : Drop.t)
    (splashes : list Splash.t) (n : nat) :
  exists new,
    fst (dropSplashes canvas p splashes n) = splashes ++ new
    /\ length new = 3%nat
    /\ Forall (fun s => Splash.x s = Drop.x p
                        /\ Splash.y s = waterLevel canvas
                        /\ Splash.life s = 1.0
                        /\ exists k, Splash.vy s = - (Math_random k * 5 + 2))
         new.
Proof.
  unfold dropSplashes.
  match goal with
  | |- context [foldM ?body ?idx splashes n] =>
      destruct (foldM_append
                  (fun s => Splash.x s = Drop.x p
                            /\ Splash.y s = waterLevel canvas
                            /\ Splash.life s = 1.0
                            /\ exists k, Splash.vy s = - (Math_random k * 5 + 2))
                  body) with (l := idx) (ps := splashes) (n := n)
        as (new & -> & Hlen & Hnew)
  end.
  - intros b ps k. rewrite !bind_eq. eexists. split; [reflexivity|].
    simpl. eauto.
  - exists new. auto.
Qed.

Lemma updateDrop_hit (canvas : Canvas) (i : nat) (st : RainState) (n : nat)
    (p : Drop.t) :
  drops st !! i = Some p ->
  hitsWater canvas p = true ->
  exists ripple new,
    drops (fst (updateDrop canvas i st n)) = delete i (drops st)
    /\ ripples (fst (updateDrop canvas i st n)) = ripples st ++ [ripple]
    /\ Ripple.alpha ripple = 1
    /\ splashes (fst (updateDrop canvas i st n)) = splashes st ++ new
    /\ length new = 3%nat
    /\ Forall (fun s => Splash.y s = waterLevel canvas
                        /\ Splash.life s = 1.0
                        /\ exists k, Splash.vy s = - (Math_random k * 5 + 2))
         new.
Proof.
  intros Hi Hhit. unfold updateDrop. rewrite Hi.
  unfold hitsWater in Hhit. cbn [Drop.y].
  rewrite Hhit. rewrite !bind_eq.
  set (p' := Drop.mk _ _ _ _).
  set (n1 := snd (dropRipple canvas p' n)).
  destruct (dropSplashes_spec canvas p' (splashes st) n1)
    as (new & E & Hlen & Hnew).
  exists (fst (dropRipple canvas p' n)), new. cbn [ret fst drops ripples splashes].
  repeat split; auto.
  eapply Forall_impl; [exact Hnew|]. intros s (_ & ? & ? & ?). auto.
Qed.

Lemma updateDrop_miss (canvas : Canvas) (i : nat) (st : RainState) (n : nat)
    (p : Drop.t) :
  drops st !! i = Some p ->
  hitsWater canvas p = false ->
  updateDrop canvas i st n
  = ({| drops := <[i := advance p]> (drops st);
        ripples := ripples st;
        splashes := splashes st |}, n).
Proof.
  intros Hi Hhit. unfold updateDrop. rewrite Hi.
  unfold hitsWater in Hhit. cbn [Drop.y].
  rewrite Hhit. reflexivity.
Qed.

(** The loop over the drops removes the drops that reach the water, moves
    the others, and adds one ripple and three splashes per removed drop. *)
Lemma updateDrops_spec (canvas : Canvas) (pre : list Drop.t) :
  forall (suf : list Drop.t) (rip : list Ripple.t) (spl : list Splash.t)
         (n : nat),
  exists newR newS,
    let st' := fst (for_downM (length pre) (updateDrop canvas)
                      (mkRain (pre ++ suf) rip spl) n) in
    drops st'
    = map advance (List.filter (fun p => negb (hitsWater canvas p)) pre) ++ suf
    /\ ripples st' = rip ++ newR
    /\ length newR = length (List.filter (hitsWater canvas) pre)
    /\ Forall (fun r => Ripple.alpha r = 1) newR
    /\ splashes st' = spl ++ newS
    /\ (length newS = 3 * length (List.filter (hitsWater canvas) pre))%nat
    /\ Forall (fun s => Splash.y s = waterLevel canvas
                        /\ Splash.life s = 1.0
                        /\ exists k, Splash.vy s = - (Math_random k * 5 + 2))
         newS.
Proof.
  induction pre as [|p pre IH] using rev_ind; intros suf rip spl n.
  - exists [], []. simpl. rewrite !app_nil_r. repeat split; constructor.
  - rewrite length_app, Nat.add_1_r. cbn [for_downM]. rewrite bind_eq.
    assert (drops (mkRain ((pre ++ [p]) ++ suf) rip spl) !! length pre = Some p)
      as Hi.
    { simpl. rewrite <- app_assoc. apply list_lookup_middle. reflexivity. }
    rewrite !List.filter_app, map_app. simpl.
    destruct (hitsWater canvas p) eqn:Hhit; simpl.
    + destruct (updateDrop_hit canvas (length pre) _ n p Hi Hhit)
        as (ripple & new & Ed & Er & Ha & Es & Hlen & Hnew).
      destruct (fst (updateDrop canvas (length pre) _ n)) as [ds rs ss] eqn:E1.
      simpl in Ed, Er, Es. subst ds rs ss.
      assert (delete (length pre) ((pre ++ [p]) ++ suf) = pre ++ suf) as ->.
      { rewrite <- app_assoc. simpl.
        rewrite (delete_middle pre suf p). reflexivity. }
      destruct (IH suf (rip ++ [ripple]) (spl ++ new)
                  (snd (updateDrop canvas (length pre)
                          (mkRain ((pre ++ [p]) ++ suf) rip spl) n)))
        as (newR & newS & H1 & H2 & H3 & H4 & H5 & H6 & H7).
      exists (ripple :: newR), (new ++ newS). cbv zeta in *.
      rewrite H1, H2, H5, app_nil_r, <- !app_assoc. simpl.
      rewrite !length_app, H3, H6, Hlen. simpl.
      repeat split; auto; try lia.
      apply Forall_app; auto.
    + rewrite (updateDrop_miss canvas (length pre) _ n p Hi Hhit).
      cbn [fst snd drops ripples splashes].
      assert (<[length pre := advance p]> ((pre ++ [p]) ++ suf)
              = pre ++ advance p :: suf) as ->.
      { rewrite <- app_assoc. simpl.
        rewrite insert_app_r_alt by lia.
        now rewrite Nat.sub_diag. }
      destruct (IH (advance p :: suf) rip spl n)
        as (newR & newS & H1 & H2 & H3 & H4 & H5 & H6 & H7).
      exists newR, newS. cbv zeta in *.
      rewrite H1, H2, H5, <- !app_assoc. simpl.
      rewrite !length_app, H3, H6. simpl.
      repeat split; auto; lia.
Qed.

End RainFacts.

(** A downward loop that moves each element and splices out the ones that
    are gone maps and filters the array. *)
Lemma for_down_splice {A} (upd : A -> A) (gone : A -> bool)
    (body : nat -> list A -> list A) :
  (forall i l,
      body i l = match l !! i with
                 | Some a => if gone (upd a) then delete i l
                             else <[i := upd a]> l
                 | None => l
                 end) ->
  forall pre suf,
    for_down (length pre) body (pre ++ suf)
    = List.filter (fun a => negb (gone a)) (map upd pre) ++ suf.
Proof.
  intros Hbody. induction pre as [|a pre IH] using rev_ind; intros suf.
  - reflexivity.
  - rewrite length_app, Nat.add_1_r. cbn [for_down]. rewrite Hbody.
    rewrite <- app_assoc. simpl.
    rewrite list_lookup_middle by reflexivity.
    rewrite map_app, List.filter_app. simpl.
    destruct (gone (upd a)); simpl.
    + rewrite delete_middle, IH, app_nil_r. reflexivity.
    + rewrite insert_app_r_alt, Nat.sub_diag by lia. simpl.
      rewrite IH, <- app_assoc. reflexivity.
Qed.

Lemma filter_all {A} (f : A -> bool) (l : list A) :
  Forall (fun a => f a = true) l -> List.filter f l = l.
Proof.
  intros Hall. apply forallb_filter_id, forallb_forall.
  intros a Ha. apply (proj1 (Forall_forall _ _) Hall), list_elem_of_In, Ha.
Qed.

Section RainScenario.
Context `{rt : JSRuntime}.

(** The loop over the ripples keeps the ripples whose alpha stays
    positive. *)
Lemma updateRipples_eq (ripples : list Ripple.t) :
  for_down (length ripples) updateRipple ripples
  = List.filter (fun rip => negb (Ripple.alpha rip <=? 0))
      (map moveRipple ripples).
Proof.
  rewrite <- (app_nil_r ripples) at 2.
  rewrite (for_down_splice moveRipple (fun rip => Ripple.alpha rip <=? 0)).
  - now rewrite app_nil_r.
  - intros i l. unfold updateRipple. destruct (l !! i); reflexivity.
Qed.

(** The loop over the splashes keeps the splashes that have life left and
    are above the bottom of the canvas. *)
Lemma updateSplashes_eq (canvas : Canvas) (splashes : list Splash.t) :
  for_down (length splashes) (updateSplash canvas) splashes
  = List.filter (fun s => negb ((Splash.life s <=? 0)
                                || (Splash.y s >? num (height canvas))))
      (map moveSplash splashes).
Proof.
  rewrite <- (app_nil_r splashes) at 2.
  rewrite (for_down_splice moveSplash
             (fun s => (Splash.life s <=? 0)
                       || (Splash.y s >? num (height canvas)))).
  - now rewrite app_nil_r.
  - intros i l. unfold updateSplash. destruct (l !! i); reflexivity.
Qed.

Variable canvas : Canvas.
Variable handData : HandData.t.
Hypothesis Habsent : HandData.isPresent handData = false.

(** Without a hand no drop is spawned and the hand makes no ripple. *)
Lemma renderRain_absent (st : RainState) (n : nat) :
  renderRain canvas handData st n
  = let r := for_downM (length (drops st)) (updateDrop canvas) st n in
    ({| drops := drops (fst r);
        ripples := for_down (length (ripples (fst r))) updateRipple
                     (ripples (fst r));
        splashes := for_down (length (splashes (fst r)))
                      (updateSplash canvas) (splashes (fst r)) |}, snd r).
Proof.
  unfold renderRain, rainDrops, handWater, intensity.
  rewrite (isOpen_absent handData Habsent), Habsent.
  change (Math_floor (0 * 10)) with 0%Z.
  cbn [andb Z.to_nat seq spawnDrops foldM].
  rewrite !bind_eq. cbn [ret fst snd drops ripples splashes].
  destruct st as [ds rs ss]. reflexivity.
Qed.

Lemma tick_miss (p : Drop.t) (n : nat) :
  hitsWater canvas p = false ->
  renderRain canvas handData (mkRain [p] [] []) n
  = (mkRain [advance p] [] [], n).
Proof.
  intros Hmiss. rewrite renderRain_absent.
  cbn [drops length for_downM]. rewrite bind_eq.
  rewrite (updateDrop_miss canvas 0 (mkRain [p] [] []) n p eq_refl Hmiss).
  reflexivity.
Qed.

Lemma tick_hit (p : Drop.t) (n : nat) :
  unit_random ->
  hitsWater canvas p = true ->
  let st' := fst (renderRain canvas handData (mkRain [p] [] []) n) in
  drops st' = []
  /\ length (ripples st') = 1%nat
  /\ length (splashes st') = 3%nat.
Proof.
  intros Hr Hhit. rewrite renderRain_absent. cbv zeta. cbn [fst].
  destruct (updateDrops_spec canvas [p] [] [] [] n) as (newR & newS & Hs).
  change (for_downM (length [p]) (updateDrop canvas)
            (mkRain ([p] ++ []) [] []) n)
    with (for_downM (length (drops (mkRain [p] [] []))) (updateDrop canvas)
            (mkRain [p] [] []) n) in Hs.
  set (r := for_downM _ _ _ n) in *.
  destruct Hs as (H1 & H2 & H3 & H4 & H5 & H6 & H7).
  simpl List.filter in H1, H3, H6. rewrite Hhit in H1, H3, H6.
  simpl in H1, H2, H3, H5, H6.
  cbn [drops ripples splashes].
  rewrite H1, H2, H5, updateRipples_eq, updateSplashes_eq.
  rewrite !filter_all, !length_map; [auto| |].
  - apply Forall_map. eapply Forall_impl; [exact H7|].
    intros s (Hy & Hl & k & Hv). simpl. rewrite Hy, Hl, Hv.
    destruct (Hr k) as [H0 H01].
    apply negb_true_iff, orb_false_iff. split.
    + apply not_true_iff_false. rewrite Qle_bool_iff. lra.
    + apply Qgtb_le. unfold waterLevel. lra.
  - apply Forall_map. eapply Forall_impl; [exact H4|].
    intros rip Ha. simpl. rewrite Ha. reflexivity.
Qed.

End RainScenario.

Section LonelyDrop.
Context `{rt : JSRuntime}.
Variable canvas : Canvas.
Variable handData : HandData.t.
Variable time : Q.
Hypothesis Habsent : HandData.isPresent handData = false.

Lemma runRain_app (a b : list Tick) : forall (st : RainState) (n : nat),
  runRain (a ++ b) st n
  = runRain b (fst (runRain a st n)) (snd (runRain a st n)).
Proof.
  induction a as [|t a IH]; intros st n; [reflexivity|].
  cbn [app runRain]. rewrite !bind_eq. apply IH.
Qed.

(** A drop at height [-50 + 25 j] with speed 25 reaches the water on its
    next move exactly when [j + 1] is at least [crossTick]. *)
Lemma hitsWater_crossTick (d : Drop.t) (j : nat) :
  Drop.y d == -50 + 25 * inject_Z (Z.of_nat j) ->
  Drop.speed d = 25 ->
  hitsWater canvas d = true <-> (crossTick canvas <= S j)%nat.
Proof.
  intros Hy Hs. unfold hitsWater, waterLevel, crossTick, num.
  rewrite Qgtb_gt, Hy, Hs.
  assert (-50 + 25 * inject_Z (Z.of_nat j) + 25
          == inject_Z (25 * Z.of_nat j + (-25))) as ->.
  { rewrite inject_Z_plus, inject_Z_mult.
    change (inject_Z 25) with 25. change (inject_Z (-25)) with (-25). lra. }
  assert (inject_Z (height canvas) - 100
          == inject_Z (height canvas + (-100))) as ->.
  { rewrite inject_Z_plus. change (inject_Z (-100)) with (-100). lra. }
  rewrite <- Zlt_Qlt.
  pose proof (Z.div_mod (height canvas - 50) 25 ltac:(lia)) as Hdm.
  pose proof (Z.mod_pos_bound (height canvas - 50) 25 ltac:(lia)) as Hmod.
  split; intros Hlt; lia.
Qed.

Lemma crossTick_pos : (1 <= crossTick canvas)%nat.
Proof. unfold crossTick. lia. Qed.

(** Before [crossTick] the drop is the only entity of the simulation. *)
Lemma flying (k : nat) : forall (d : Drop.t) (j n : nat),
  Drop.y d == -50 + 25 * inject_Z (Z.of_nat j) ->
  Drop.speed d = 25 ->
  (j + k < crossTick canvas)%nat ->
  exists d',
    runRain (replicate k (mkTick canvas handData time)) (mkRain [d] [] []) n
    = (mkRain [d'] [] [], n)
    /\ Drop.y d' == -50 + 25 * inject_Z (Z.of_nat (j + k))
    /\ Drop.speed d' = 25.
Proof.
  induction k as [|k IH]; intros d j n Hy Hs Hlt.
  - exists d. rewrite Nat.add_0_r. auto.
  - cbn [replicate runRain]. rewrite bind_eq. cbn [tcanvas thandData].
    assert (hitsWater canvas d = false) as Hmiss.
    { apply not_true_iff_false. rewrite (hitsWater_crossTick d j Hy Hs). lia. }
    rewrite (tick_miss canvas handData Habsent d n Hmiss). cbn [fst snd].
    assert (Drop.y (advance d) == -50 + 25 * inject_Z (Z.of_nat (S j)))
      as Hy1.
    { simpl. rewrite Hy, Hs, Nat2Z.inj_succ. unfold Z.succ.
      rewrite inject_Z_plus. change (inject_Z 1) with 1. lra. }
    destruct (IH (advance d) (S j) n Hy1 Hs ltac:(lia)) as (d' & E & Hy' & Hs').
    exists d'. replace (j + S k)%nat with (S j + k)%nat by lia.
    split; [exact E | split; assumption].
Qed.

Lemma crossing (x len : Q) (n : nat) :
  unit_random ->
  let st' := fst (runRain (replicate (crossTick canvas)
                             (mkTick canvas handData time))
                    (mkRain [lonelyDrop x len] [] []) n) in
  drops st' = []
  /\ length (ripples st') = 1%nat
  /\ length (splashes st') = 3%nat.
Proof.
  intros Hr. pose proof crossTick_pos as Hpos.
  destruct (crossTick canvas) as [|m] eqn:Ec; [lia|].
  rewrite replicate_S_end, runRain_app.
  assert (Drop.y (lonelyDrop x len) == -50 + 25 * inject_Z (Z.of_nat 0))
    as Hy0 by (vm_compute; reflexivity).
  destruct (flying m (lonelyDrop x len) 0 n Hy0 eq_refl ltac:(lia))
    as (d & -> & Hy & Hs).
  cbn [fst snd runRain]. rewrite bind_eq. cbn [fst ret].
  apply (tick_hit canvas handData Habsent d n Hr).
  apply (hitsWater_crossTick d (0 + m) Hy Hs). simpl. lia.
Qed.

End LonelyDrop.

(** C6: the loop over the drops removes exactly the drops that cross the
    water line on this tick and creates one ripple and three splashes for each
    of them; and a drop spawned at y = -50 with fall speed 25 is alone in the
    air for [crossTick canvas - 1] ticks and on tick [crossTick canvas] is
    removed, leaving exactly one ripple and three splashes. *)
Theorem drop_hits_water `{rt : JSRuntime} (canvas : Canvas)
    (handData : HandData.t) (time x len : Q) (st : RainState) (n : nat) :
  unit_random ->
  HandData.isPresent handData = false ->
  (exists newR newS,
      let st' := fst (for_downM (length (drops st)) (updateDrop canvas) st n) in
      drops st'
      = map advance (List.filter (fun p => negb (hitsWater canvas p)) (drops st))
      /\ ripples st' = ripples st ++ newR
      /\ length newR = length (List.filter (hitsWater canvas) (drops st))
      /\ splashes st' = splashes st ++ newS
      /\ (length newS
          = 3 * length (List.filter (hitsWater canvas) (drops st)))%nat)
  /\ let run k := fst (runRain (replicate k (mkTick canvas handData time))
                         (mkRain [lonelyDrop x len] [] []) n) in
     (forall k, (k < crossTick canvas)%nat ->
                exists d, run k = mkRain [d] [] []
                          /\ Drop.y d == -50 + 25 * inject_Z (Z.of_nat k))
     /\ drops (run (crossTick canvas)) = []
     /\ length (ripples (run (crossTick canvas))) = 1%nat
     /\ length (splashes (run (crossTick canvas))) = 3%nat.
Proof.
  intros Hr Habsent. split.
  - destruct st as [ds rs ss].
    pose proof (updateDrops_spec canvas ds [] rs ss n) as Hs.
    rewrite !app_nil_r in Hs.
    destruct Hs as (newR & newS & H1 & H2 & H3 & _ & H5 & H6 & _).
    exists newR, newS. cbv zeta. cbn [drops ripples splashes].
    split; [exact H1|]. split; [exact H2|]. split; [exact H3|].
    split; [exact H5 | exact H6].
  - cbv zeta. split.
    + intros k Hk.
      assert (Drop.y (lonelyDrop x len) == -50 + 25 * inject_Z (Z.of_nat 0))
        as Hy0 by (vm_compute; reflexivity).
      destruct (flying canvas handData time Habsent k (lonelyDrop x len) 0 n
                  Hy0 eq_refl ltac:(lia)) as (d & E & Hy & _).
      exists d. rewrite E. auto.
    + now apply crossing.
Qed.

Lemma drop_hits_water_witness :
  (exists newR newS,
      let st' := fst (@for_downM RainState (length (drops sampleRain))
                        (@updateDrop (constRuntime 0.5) sampleCanvas)
                        sampleRain 0%nat) in
      drops st'
      = map advance
          (List.filter (fun p => negb (hitsWater sampleCanvas p))
             (drops sampleRain))
      /\ ripples st' = ripples sampleRain ++ newR
      /\ length newR
         = length (List.filter (hitsWater sampleCanvas) (drops sampleRain))
      /\ splashes st' = splashes sampleRain ++ newS
      /\ (length newS
          = 3 * length (List.filter (hitsWater sampleCanvas)
                          (drops sampleRain)))%nat)
  /\ let run k :=
       fst (@runRain (constRuntime 0.5)
              (replicate k (mkTick sampleCanvas absentPose 1700000000))
              (mkRain [lonelyDrop 100 30] [] []) 0%nat) in
     (forall k, (k < crossTick sampleCanvas)%nat ->
                exists d, run k = mkRain [d] [] []
                          /\ Drop.y d == -50 + 25 * inject_Z (Z.of_nat k))
     /\ drops (run (crossTick sampleCanvas)) = []
     /\ length (ripples (run (crossTick sampleCanvas))) = 1%nat
     /\ length (splashes (run (crossTick sampleCanvas))) = 3%nat.
Proof.
  apply (@drop_hits_water (constRuntime 0.5) sampleCanvas absentPose
           1700000000 100 30 sampleRain 0%nat).
  - intros k. simpl. lra.
  - reflexivity.
Defined.

(** The scenario evaluated on a canvas of height 720: the drop is in the air
    at height 600 after 26 ticks and gone after 27. *)
Example lonely_drop_720 :
  let run k :=
    fst (@runRain (constRuntime 0.5)
           (replicate k (mkTick sampleCanvas absentPose 1700000000))
           (mkRain [lonelyDrop 100 30] [] []) 0%nat) in
  crossTick sampleCanvas = 27%nat
  /\ map (fun d => Qred (Drop.y d)) (drops (run 26%nat)) = [600]
  /\ length (ripples (run 26%nat)) = 0%nat
  /\ length (splashes (run 26%nat)) = 0%nat
  /\ length (drops (run 27%nat)) = 0%nat
  /\ length (ripples (run 27%nat)) = 1%nat
  /\ length (splashes (run 27%nat)) = 3%nat.
Proof. vm_compute. repeat split. Qed.

Lemma mode_change_resets_witness :
  let r := @modeEffect busyVisualizer SNOW in
  particlesRef r = []
  /\ ripplesRef r = []
  /\ splashesRef r = []
  /\ wasOpenRef r = false
  /\ snowGroundRef r = None
  /\ initSnowGround SNOW sampleCanvas (snowGroundRef r)
     = Some (replicate (Z.to_nat (width sampleCanvas))
               (num (height sampleCanvas)))
  /\ @propsChange (constRuntime 0.5) busyVisualizer SNOW lowPose sampleCanvas
       1700000000 0%nat
     = @propsChange (constRuntime 0.5) (mkVisualizer SNOW lowPose initialRefs)
         SNOW lowPose sampleCanvas 1700000000 0%nat.
Proof.
  apply (@mode_change_resets (constRuntime 0.5) busyVisualizer SNOW lowPose
           sampleCanvas 1700000000 0%nat).
  discriminate.
Defined.

(** ** The particles of the Visualizer are homogeneous *)

Lemma mapM_asJelly (l : list Jelly.t) : mapM asJelly (AJelly <$> l) = Some l.
Proof.
  apply mapM_Some. induction l as [|a l IH]; simpl; constructor; auto.
Qed.

Lemma mapM_asSnowflake (l : list Snowflake.t) :
  mapM asSnowflake (ASnowflake <$> l) = Some l.
Proof.
  apply mapM_Some. induction l as [|a l IH]; simpl; constructor; auto.
Qed.

Lemma mapM_asDrop (l : list Drop.t) : mapM asDrop (ADrop <$> l) = Some l.
Proof.
  apply mapM_Some. induction l as [|a l IH]; simpl; constructor; auto.
Qed.

Lemma homogeneous_nil (mode : AppMode) : homogeneous mode [].
Proof. destruct mode; exists []; reflexivity. Qed.

(** [render] never meets a particle of another simulation, and leaves only
    particles of the active one. *)
Lemma render_homogeneous `{rt : JSRuntime} (mode : AppMode)
    (handData : HandData.t) (canvas : Canvas) (time : Q) (r : Refs) (n : nat) :
  homogeneous mode (particlesRef r) ->
  exists r',
    fst (render mode handData canvas time r n) = Some r'
    /\ homogeneous mode (particlesRef r').
Proof.
  destruct mode; intros [l Hl]; unfold render; cbv beta iota zeta; rewrite Hl.
  - rewrite mapM_asJelly, bind_eq. eexists. split; [reflexivity|].
    simpl. eauto.
  - rewrite mapM_asSnowflake, bind_eq. eexists. split; [reflexivity|].
    simpl. eauto.
  - rewrite mapM_asDrop, bind_eq. eexists. split; [reflexivity|].
    simpl. eauto.
Qed.

Lemma propsChange_homogeneous `{rt : JSRuntime} (v : Visualizer)
    (mode : AppMode) (handData : HandData.t) (canvas : Canvas) (time : Q)
    (n : nat) :
  homogeneous (vmode v) (particlesRef (refs v)) ->
  exists v',
    fst (propsChange v mode handData canvas time n) = Some v'
    /\ vmode v' = mode
    /\ homogeneous (vmode v') (particlesRef (refs v')).
Proof.
  intros Hv. unfold propsChange. rewrite bind_eq.
  destruct (render_homogeneous mode handData canvas time (modeEffect v mode) n)
    as (r' & -> & Hr').
  - unfold modeEffect. destruct (AppMode_eqb (vmode v) mode) eqn:E.
    + apply AppMode_eqb_eq in E. now rewrite <- E.
    + apply homogeneous_nil.
  - eexists. split; [reflexivity|]. split; [reflexivity | exact Hr'].
Qed.

Lemma animationFrame_homogeneous `{rt : JSRuntime} (v : Visualizer)
    (canvas : Canvas) (time : Q) (n : nat) :
  homogeneous (vmode v) (particlesRef (refs v)) ->
  exists v',
    fst (animationFrame v canvas time n) = Some v'
    /\ vmode v' = vmode v
    /\ homogeneous (vmode v') (particlesRef (refs v')).
Proof.
  intros Hv. unfold animationFrame. rewrite bind_eq.
  destruct (render_homogeneous (vmode v) (vhandData v) canvas time (refs v) n Hv)
    as (r' & -> & Hr').
  eexists. split; [reflexivity|]. split; [reflexivity | exact Hr'].
Qed.

(** * Further properties of the detection loop *)

Section LoopFacts.
Context `{rt : JSRuntime}.

Lemma trackHand_inv (app app' : App) (now : Z) (landmarks : list Landmark.t) :
  trackHand app now landmarks = Some app' ->
  exists kp wrist thumbTip indexTip middleTip ringTip pinkyTip,
    keyPoints landmarks = Some kp
    /\ landmarks !! 0%nat = Some wrist
    /\ landmarks !! 4%nat = Some thumbTip
    /\ landmarks !! 8%nat = Some indexTip
    /\ landmarks !! 12%nat = Some middleTip
    /\ landmarks !! 16%nat = Some ringTip
    /\ landmarks !! 20%nat = Some pinkyTip
    /\ (20 < length landmarks)%nat.
Proof.
  unfold trackHand. intros Ht.
  destruct (keyPoints landmarks) as [kp|]; [|discriminate].
  destruct (landmarks !! 0%nat) as [w|]; [|discriminate].
  destruct (landmarks !! 4%nat) as [t|]; [|discriminate].
  destruct (landmarks !! 8%nat) as [i|]; [|discriminate].
  destruct (landmarks !! 12%nat) as [m|]; [|discriminate].
  destruct (landmarks !! 16%nat) as [r|]; [|discriminate].
  destruct (landmarks !! 20%nat) as [p|] eqn:E20; [|discriminate].
  exists kp, w, t, i, m, r, p. repeat split; try reflexivity.
  apply lookup_lt_Some in E20. exact E20.
Qed.

(** A run of [loop] leaves the timestamp of the processed frame in
    [lastVideoTimeRef]. *)
Lemma loop_lastVideoTime (app app' : App) (fr : Frame) (v : Video) :
  video fr = Some v ->
  processed app fr = true ->
  loop app fr = Some app' ->
  lastVideoTimeRef app' = currentTime v.
Proof.
  intros Hv Hp Hl.
  destruct (detectedHand fr) as [landmarks|] eqn:Hd.
  - rewrite (loop_detected _ _ _ _ Hv Hp Hd) in Hl.
    destruct (trackHand_inv _ _ _ _ Hl) as (kp & w & t & i & m & r & p & _ & _ & _ & _ & _ & _ & _ & Hlen).
    destruct (trackHand_Some (setLastVideoTime app (currentTime v))
                (Date_now fr) landmarks Hlen)
      as (kp' & w' & t' & i' & m' & r' & p' & _ & _ & _ & _ & _ & _ & _ & E).
    rewrite E in Hl. injection Hl as <-. reflexivity.
  - rewrite (loop_absent _ _ _ Hv Hp Hd) in Hl. injection Hl as <-. reflexivity.
Qed.

Lemma loop_skipped (app : App) (fr : Frame) :
  processed app fr = false -> loop app fr = Some app.
Proof.
  unfold processed, loop. destruct (video fr) as [v|]; [|reflexivity].
  destruct (readyState v =? 4)%Z; [|reflexivity].
  simpl. now intros ->.
Qed.

End LoopFacts.

(** X1: a frame whose video is not ready, or whose timestamp is the one
    processed last, changes nothing; so a frame that has been processed
    changes nothing when it is seen again. *)
Theorem duplicate_frame_skipped `{rt : JSRuntime} (app app' : App) (fr : Frame) :
  loop app fr = Some app' ->
  (processed app fr = false -> app' = app)
  /\ processed app' fr = false
  /\ loop app' fr = Some app'.
Proof.
  intros Hl. split.
  - intros Hp. rewrite (loop_skipped app fr Hp) in Hl. congruence.
  - assert (processed app' fr = false) as Hp'.
    { destruct (processed app fr) eqn:Hp.
      - destruct (processed_video _ _ Hp) as [v Hv].
        pose proof (loop_lastVideoTime app app' fr v Hv Hp Hl) as Ht.
        unfold processed. rewrite Hv, Ht.
        assert (Qeq_bool (currentTime v) (currentTime v) = true) as ->
          by (apply Qeq_bool_iff; reflexivity).
        apply andb_false_r.
      - rewrite (loop_skipped app fr Hp) in Hl. congruence. }
    split; [exact Hp' | now apply loop_skipped].
Qed.

Lemma duplicate_frame_skipped_witness :
  let fr := frameAt 13 [okHand] 1700000001501 in
  let app' := default switchedApp (@loop (constRuntime 0) switchedApp fr) in
  (processed switchedApp fr = false -> app' = switchedApp)
  /\ processed app' fr = false
  /\ @loop (constRuntime 0) app' fr = Some app'.
Proof.
  apply (@duplicate_frame_skipped (constRuntime 0) switchedApp).
  vm_compute. reflexivity.
Defined.

Section CentroidFacts.
Context `{rt : JSRuntime}.

Lemma keyPoints_Forall (P : Landmark.t -> Prop) (landmarks kp : list Landmark.t) :
  Forall P landmarks ->
  keyPoints landmarks = Some kp ->
  Forall P kp /\ length kp = 5%nat.
Proof.
  intros HP Hkp. unfold keyPoints in Hkp. apply mapM_Some in Hkp. split.
  - apply Forall_forall. intros p Hp.
    destruct (proj1 (list_elem_of_lookup _ _) Hp) as [j Hj].
    destruct (Forall2_lookup_r _ _ _ _ _ Hkp Hj) as (i & _ & Hi).
    exact (proj1 (Forall_lookup _ _) HP _ _ Hi).
  - apply Forall2_length in Hkp. simpl in Hkp. congruence.
Qed.

Lemma sum_bounds (f : Landmark.t -> Q) (l : list Landmark.t) : forall a : Q,
  Forall (fun p => 0 <= f p /\ f p <= 1) l ->
  a <= fold_left (fun s p => s + f p) l a
  /\ fold_left (fun s p => s + f p) l a <= a + num (Z.of_nat (length l)).
Proof.
  induction l as [|p l IH]; intros a Hl.
  - cbn [fold_left length]. unfold num.
    change (inject_Z (Z.of_nat 0)) with 0. lra.
  - apply Forall_cons in Hl as [[Hp0 Hp1] Hl].
    destruct (IH (a + f p) Hl) as [H0 H1]. cbn [fold_left length].
    rewrite Nat2Z.inj_succ. unfold Z.succ, num in *. rewrite inject_Z_plus.
    change (inject_Z 1) with 1. lra.
Qed.

Lemma mean_bounds (f : Landmark.t -> Q) (l : list Landmark.t) :
  (0 < length l)%nat ->
  Forall (fun p => 0 <= f p /\ f p <= 1) l ->
  0 <= fold_left (fun s p => s + f p) l 0 / num (Z.of_nat (length l))
  /\ fold_left (fun s p => s + f p) l 0 / num (Z.of_nat (length l)) <= 1.
Proof.
  intros Hlen Hl. destruct (sum_bounds f l 0 Hl) as [H0 H1].
  assert (0 < num (Z.of_nat (length l))) as Hn.
  { unfold num. change 0 with (inject_Z 0). rewrite <- Zlt_Qlt. lia. }
  split.
  - apply Qle_shift_div_l; [exact Hn | lra].
  - apply Qle_shift_div_r; [exact Hn | lra].
Qed.

End CentroidFacts.

(** X2: when the landmarks of the detected hand lie in the unit square, the
    published centroid (mirrored in x) lies in the unit square. *)
Theorem centroid_in_unit_square `{rt : JSRuntime} (app : App) (fr : Frame)
    (landmarks : list Landmark.t) :
  processed app fr = true ->
  detectedHand fr = Some landmarks ->
  length landmarks = 21%nat ->
  Forall inUnitSquare landmarks ->
  exists app',
    loop app fr = Some app'
    /\ 0 <= HandData.x (handData app') /\ HandData.x (handData app') <= 1
    /\ 0 <= HandData.y (handData app') /\ HandData.y (handData app') <= 1.
Proof.
  intros Hp Hd Hlen Hsq.
  destruct (processed_video _ _ Hp) as [v Hv].
  rewrite (loop_detected _ _ _ _ Hv Hp Hd).
  destruct (trackHand_Some (setLastVideoTime app (currentTime v))
              (Date_now fr) landmarks ltac:(lia))
    as (kp & w & t & i & m & r & p & Hkp & _ & _ & _ & _ & _ & _ & ->).
  destruct (keyPoints_Forall inUnitSquare landmarks kp Hsq Hkp) as [Hkp' Hk5].
  eexists. split; [reflexivity|]. cbn [handData HandData.x HandData.y].
  unfold centroidX, centroidY, sumX, sumY.
  destruct (mean_bounds Landmark.x kp ltac:(lia)) as [Hx0 Hx1].
  { eapply Forall_impl; [exact Hkp'|]. intros q [Hq _]. exact Hq. }
  destruct (mean_bounds Landmark.y kp ltac:(lia)) as [Hy0 Hy1].
  { eapply Forall_impl; [exact Hkp'|]. intros q [_ Hq]. exact Hq. }
  repeat split; lra.
Qed.

Lemma centroid_in_unit_square_witness :
  exists app',
    @loop (constRuntime 0) initialApp (frameAt 1 [openHand] 1700000000000)
    = Some app'
    /\ 0 <= HandData.x (handData app') /\ HandData.x (handData app') <= 1
    /\ 0 <= HandData.y (handData app') /\ HandData.y (handData app') <= 1.
Proof.
  apply (@centroid_in_unit_square (constRuntime 0) initialApp
           (frameAt 1 [openHand] 1700000000000) openHand);
    try (vm_compute; reflexivity).
  repeat constructor; vm_compute; discriminate.
Defined.

Ltac band_iff :=
  split; intros;
  repeat match goal with
         | H : _ /\ _ |- _ => destruct H
         | H : _ \/ _ |- _ => destruct H
         end;
  try discriminate; try lra; try (exfalso; lra);
  first [ left; reflexivity | right; lra | repeat split; solve [reflexivity | lra] | idtac ].

(** X3: a tab is hovered exactly when a hand is present with its centroid in
    the top fifth of the frame, and the tab is the third of the width the
    centroid is in. *)
Theorem hover_tab_bands (data : HandData.t) :
  (handleTabHover data = None
   <-> HandData.isPresent data = false \/ 0.2 <= HandData.y data)
  /\ (handleTabHover data = Some JELLYFISH
      <-> HandData.isPresent data = true /\ HandData.y data < 0.2
          /\ HandData.x data < 1 # 3)
  /\ (handleTabHover data = Some SNOW
      <-> HandData.isPresent data = true /\ HandData.y data < 0.2
          /\ 1 # 3 <= HandData.x data /\ HandData.x data < 2 # 3)
  /\ (handleTabHover data = Some RAIN
      <-> HandData.isPresent data = true /\ HandData.y data < 0.2
          /\ 2 # 3 <= HandData.x data).
Proof.
  unfold handleTabHover. change (1 / 3) with (1 # 3).
  destruct (HandData.y data <? 0.20) eqn:Ey;
    [apply Qltb_lt in Ey | apply Qltb_ge in Ey];
    (destruct (HandData.isPresent data); cbn [andb];
     [|split; [|split; [|split]]; band_iff]).
  - destruct (HandData.x data <? 1 # 3) eqn:E1;
      [apply Qltb_lt in E1 | apply Qltb_ge in E1].
    + cbn. split; [|split; [|split]]; band_iff.
    + destruct (HandData.x data <? (1 # 3) * 2) eqn:E2;
        [apply Qltb_lt in E2 | apply Qltb_ge in E2];
        cbn; (split; [|split; [|split]]); band_iff.
  - split; [|split; [|split]]; band_iff.
Qed.

(** X4: the mode and the debounce timer change only on a frame that emits a
    ModeSwitch: a frame that is skipped, shows no hand, shows a hand without
    the OK gesture, or comes within the debounce window leaves both as they
    are. *)
Theorem mode_changes_only_on_switch `{rt : JSRuntime} (app app' : App)
    (fr : Frame) :
  loop app fr = Some app' ->
  emitsModeSwitch app fr = false ->
  mode app' = mode app /\ lastSwitchTimeRef app' = lastSwitchTimeRef app.
Proof.
  intros Hl He.
  destruct (processed app fr) eqn:Hp.
  - destruct (processed_video _ _ Hp) as [v Hv].
    destruct (detectedHand fr) as [landmarks|] eqn:Hd.
    + rewrite (loop_detected _ _ _ _ Hv Hp Hd) in Hl.
      destruct (trackHand_inv _ _ _ _ Hl)
        as (kp & w & t & i & m & r & p & _ & E0 & E4 & E8 & E12 & E16 & E20 & Hlen).
      destruct (trackHand_Some (setLastVideoTime app (currentTime v))
                  (Date_now fr) landmarks Hlen)
        as (kp' & w' & t' & i' & m' & r' & p' & _ & F0 & F4 & F8 & F12 & F16 & F20 & E).
      rewrite E in Hl. injection Hl as <-.
      unfold emitsModeSwitch in He. rewrite Hp, Hd in He. cbn [andb] in He.
      unfold detectsOk in He. rewrite F0, F4, F8, F12, F16, F20 in He.
      cbn [mode lastSwitchTimeRef setLastVideoTime] in *.
      rewrite He. split; reflexivity.
    + rewrite (loop_absent _ _ _ Hv Hp Hd) in Hl. injection Hl as <-.
      split; reflexivity.
  - rewrite (loop_skipped app fr Hp) in Hl. injection Hl as <-.
    split; reflexivity.
Qed.

Lemma mode_changes_only_on_switch_witness :
  let fr := frameAt 13 [okHand] 1700000001500 in
  let app' := default switchedApp (@loop (constRuntime 0) switchedApp fr) in
  mode app' = mode switchedApp
  /\ lastSwitchTimeRef app' = lastSwitchTimeRef switchedApp.
Proof.
  apply (@mode_changes_only_on_switch (constRuntime 0) switchedApp _
           (frameAt 13 [okHand] 1700000001500));
    vm_compute; reflexivity.
Defined.

(** * Further properties of the jellyfish simulation *)

Section JellyfishMore.
Context `{rt : JSRuntime}.

Lemma renderJellyfish_eq (canvas : Canvas) (handData : HandData.t) (time : Q)
    (particles : list Jelly.t) (wasOpen : bool) (n : nat) :
  let handX := if HandData.isPresent handData
               then HandData.x handData * num (width canvas)
               else num (width canvas) / 2 in
  let handY := if HandData.isPresent handData
               then HandData.y handData * num (height canvas)
               else num (height canvas) / 2 in
  let s1 := spawn handX handY (isOpen handData) wasOpen particles n in
  let s2 := stateManagement handData (isOpen handData) wasOpen (fst s1) (snd s1) in
  let s3 := forEachM (updateJelly canvas handX handY time) (fst s2) (snd s2) in
  renderJellyfish canvas handData time (particles, wasOpen) n
  = ((fst s3, isOpen handData), snd s3).
Proof.
  cbv zeta. unfold renderJellyfish. rewrite !bind_eq. reflexivity.
Qed.

Lemma isOpen_present (handData : HandData.t) :
  isOpen handData = true -> HandData.isPresent handData = true.
Proof.
  unfold isOpen. destruct (HandData.isPresent handData); [reflexivity|].
  discriminate.
Qed.

Lemma spawn_none (handX handY : Q) (isOpen wasOpen : bool)
    (particles : list Jelly.t) (n : nat) :
  isOpen = false \/ wasOpen = true ->
  spawn handX handY isOpen wasOpen particles n = (particles, n).
Proof.
  unfold spawn. intros [-> | ->]; [reflexivity|].
  now rewrite andb_false_r.
Qed.

Lemma stateManagement_open (handData : HandData.t) (wasOpen : bool)
    (particles : list Jelly.t) (n : nat) :
  isOpen handData = true ->
  stateManagement handData (isOpen handData) wasOpen particles n
  = (particles, n).
Proof.
  intros Ho. unfold stateManagement.
  rewrite Ho, (isOpen_present handData Ho). reflexivity.
Qed.

(** The edge-trigger flag after a tick is the openness of the hand, and a
    tick that starts with the flag set spawns nothing. *)
Lemma renderJellyfish_held (canvas : Canvas) (handData : HandData.t) (time : Q)
    (particles : list Jelly.t) (n : nat) :
  length (fst (fst (renderJellyfish canvas handData time (particles, true) n)))
  = length particles.
Proof.
  rewrite renderJellyfish_eq. cbv zeta. cbn [fst snd].
  rewrite spawn_none by (now right). cbn [fst snd].
  now rewrite forEachM_length, stateManagement_length.
Qed.

Lemma renderJellyfish_wasOpen (canvas : Canvas) (handData : HandData.t)
    (time : Q) (st : list Jelly.t * bool) (n : nat) :
  snd (fst (renderJellyfish canvas handData time st n)) = isOpen handData.
Proof.
  destruct st as [particles wasOpen]. now rewrite renderJellyfish_eq.
Qed.

Lemma runJellyfish_held (ticks : list Tick) :
  Forall (fun t => isOpen (thandData t) = true) ticks ->
  forall (particles : list Jelly.t) (n : nat),
    length (fst (fst (runJellyfish ticks (particles, true) n)))
    = length particles.
Proof.
  induction 1 as [|t ticks Ht _ IH]; intros particles n; [reflexivity|].
  cbn [runJellyfish]. rewrite bind_eq.
  pose proof (renderJellyfish_held (tcanvas t) (thandData t) (ttime t)
                particles n) as Hlen.
  pose proof (renderJellyfish_wasOpen (tcanvas t) (thandData t) (ttime t)
                (particles, true) n) as Hw.
  destruct (fst (renderJellyfish _ _ _ _ n)) as [ps1 w1].
  cbn [fst snd] in *. rewrite Hw, Ht, IH. exact Hlen.
Qed.

End JellyfishMore.

(** X5: while the hand stays open, only the first tick can spawn: a run of
    ticks that all see an open hand adds at most 4 creatures, and none when
    the hand was already open before the run. *)
Theorem held_hand_spawns_once `{rt : JSRuntime} (ticks : list Tick)
    (st : list Jelly.t * bool) (n : nat) :
  unit_random ->
  Forall (fun t => isOpen (thandData t) = true) ticks ->
  (length (fst (fst (runJellyfish ticks st n))) <= length (fst st) + 4)%nat
  /\ (snd st = true ->
      length (fst (fst (runJellyfish ticks st n))) = length (fst st)).
Proof.
  intros Hr Hopen. destruct st as [particles wasOpen]. cbn [fst snd]. split.
  - destruct Hopen as [|t ticks Ht Hopen]; [simpl; lia|].
    cbn [runJellyfish]. rewrite bind_eq.
    destruct (renderJellyfish_particles Hr (tcanvas t) (thandData t) (ttime t)
                particles wasOpen n) as (new & Hlen & Hnew).
    pose proof (renderJellyfish_wasOpen (tcanvas t) (thandData t) (ttime t)
                  (particles, wasOpen) n) as Hw.
    destruct (fst (renderJellyfish _ _ _ _ n)) as [ps1 w1].
    cbn [fst snd] in *. rewrite Hw, Ht, (runJellyfish_held ticks Hopen), Hlen.
    rewrite length_app. destruct Hnew as [-> | [_ ?]]; simpl; lia.
  - intros ->. now apply runJellyfish_held.
Qed.

Lemma held_hand_spawns_once_witness :
  let ticks := replicate 3 (mkTick sampleCanvas openPose 1700000000) in
  (length (fst (fst (@runJellyfish (constRuntime 0.5) ticks ([], false) 0%nat)))
   <= length (@nil Jelly.t) + 4)%nat
  /\ (false = true ->
      length (fst (fst (@runJellyfish (constRuntime 0.5) ticks ([], false) 0%nat)))
      = length (@nil Jelly.t)).
Proof.
  apply (@held_hand_spawns_once (constRuntime 0.5)
           (replicate 3 (mkTick sampleCanvas openPose 1700000000))
           ([], false) 0%nat).
  - intros k. simpl. lra.
  - repeat constructor.
Defined.

Section JellyfishMotion.
Context `{rt : JSRuntime}.

Lemma spawn_app (handX handY : Q) (isOpen wasOpen : bool)
    (particles : list Jelly.t) (n : nat) :
  exists new, fst (spawn handX handY isOpen wasOpen particles n) = particles ++ new.
Proof.
  unfold spawn. destruct (isOpen && negb wasOpen);
    [|exists []; now rewrite app_nil_r].
  destruct (length particles <? 20)%nat; [|exists []; now rewrite app_nil_r].
  unfold bind at 1, random at 1.
  destruct (repeatM_push (spawnJelly handX handY)
              (Z.to_nat (Math_floor (Math_random n * 2) + 3)) particles (S n))
    as (new & E & _). eauto.
Qed.

(** The creature at index [i] after a tick is the update of the creature at
    index [i] before it, released first if the tick releases it. *)
Lemma renderJellyfish_lookup (canvas : Canvas) (handData : HandData.t)
    (time : Q) (particles : list Jelly.t) (wasOpen : bool) (n i : nat)
    (j : Jelly.t) :
  let handX := if HandData.isPresent handData
               then HandData.x handData * num (width canvas)
               else num (width canvas) / 2 in
  let handY := if HandData.isPresent handData
               then HandData.y handData * num (height canvas)
               else num (height canvas) / 2 in
  particles !! i = Some j ->
  exists j1 k,
    fst (fst (renderJellyfish canvas handData time (particles, wasOpen) n)) !! i
    = Some (fst (updateJelly canvas handX handY time j1 k))
    /\ (j1 = j
        \/ (isOpen handData = false /\ exists k1, j1 = fst (release j k1))).
Proof.
  intros handX handY Hi. rewrite renderJellyfish_eq. cbv zeta. cbn [fst snd].
  fold handX handY.
  destruct (spawn_app handX handY (isOpen handData) wasOpen particles n)
    as [new E].
  set (s1 := spawn handX handY (isOpen handData) wasOpen particles n) in *.
  assert (fst s1 !! i = Some j) as H1
    by (rewrite E; apply lookup_app_l_Some; exact Hi).
  assert (exists j1,
             fst (stateManagement handData (isOpen handData) wasOpen
                    (fst s1) (snd s1)) !! i = Some j1
             /\ (j1 = j
                 \/ (isOpen handData = false
                     /\ exists k1, j1 = fst (release j k1))))
    as (j1 & H2 & Hj1).
  { unfold stateManagement.
    destruct (isOpen handData) eqn:Ho.
    - rewrite (isOpen_present handData Ho). cbn. eauto.
    - destruct (negb false && wasOpen || negb (HandData.isPresent handData)).
      + destruct (forEachM_lookup release (fst s1) (snd s1) i j H1) as [k Hk].
        eauto 10.
      + cbn. eauto. }
  set (s2 := stateManagement _ _ _ _ _) in *.
  destruct (forEachM_lookup (updateJelly canvas handX handY time) (fst s2)
              (snd s2) i j1 H2) as [k Hk].
  eauto.
Qed.

(** The emission leaves the creature as it is or appends one bubble of
    opacity 0.8. *)
Lemma emitBubble_cases (jelly : Jelly.t) (k : nat) :
  fst (emitBubble jelly k) = jelly
  \/ exists bubble,
      Bubble.alpha bubble = 0.8
      /\ fst (emitBubble jelly k)
         = {| Jelly.x := Jelly.x jelly; Jelly.y := Jelly.y jelly;
              Jelly.vx := Jelly.vx jelly; Jelly.vy := Jelly.vy jelly;
              Jelly.scale := Jelly.scale jelly; Jelly.phase := Jelly.phase jelly;
              Jelly.state := Jelly.state jelly;
              Jelly.bubbles := Jelly.bubbles jelly ++ [bubble] |}.
Proof.
  unfold emitBubble. rewrite bind_eq.
  destruct (fst (random k) <? 0.15); [|left; reflexivity].
  right. eexists. split; [|reflexivity]. reflexivity.
Qed.

Lemma updateJelly_eq (canvas : Canvas) (handX handY time : Q)
    (jelly : Jelly.t) (k : nat) :
  fst (updateJelly canvas handX handY time jelly k)
  = updateBubbles time (fst (emitBubble (move canvas handX handY time jelly) k)).
Proof.
  unfold updateJelly, seq_. rewrite !bind_eq. reflexivity.
Qed.

(** What the update does to the position, the velocity and the state is the
    movement. *)
Lemma updateJelly_move (canvas : Canvas) (handX handY time : Q)
    (jelly : Jelly.t) (k : nat) :
  let j' := fst (updateJelly canvas handX handY time jelly k) in
  let m := move canvas handX handY time jelly in
  Jelly.x j' = Jelly.x m /\ Jelly.y j' = Jelly.y m
  /\ Jelly.vx j' = Jelly.vx m /\ Jelly.vy j' = Jelly.vy m
  /\ Jelly.state j' = Jelly.state m.
Proof.
  cbv zeta. rewrite updateJelly_eq.
  destruct (emitBubble_cases (move canvas handX handY time jelly) k)
    as [-> | (b & _ & ->)]; cbn; auto.
Qed.

Lemma move_free_box (canvas : Canvas) (handX handY time : Q) (jelly : Jelly.t) :
  (0 <= width canvas)%Z -> (0 <= height canvas)%Z ->
  Jelly.state jelly = Jelly.FREE ->
  let m := move canvas handX handY time jelly in
  (-100 <= Jelly.x m /\ Jelly.x m <= num (width canvas) + 100)
  /\ (-100 <= Jelly.y m /\ Jelly.y m <= num (height canvas) + 100).
Proof.
  intros Hw Hh Hfree. cbv zeta. unfold move. rewrite Hfree.
  cbn [Jelly.x Jelly.y].
  assert (0 <= num (width canvas)) as Hw'
    by (unfold num; change 0 with (inject_Z 0); now rewrite <- Zle_Qle).
  assert (0 <= num (height canvas)) as Hh'
    by (unfold num; change 0 with (inject_Z 0); now rewrite <- Zle_Qle).
  split.
  - destruct (Jelly.x jelly + Jelly.vx jelly <? -100) eqn:E1.
    + destruct (_ >? _) eqn:E2; [apply Qgtb_gt in E2; lra | lra].
    + apply Qltb_ge in E1.
      destruct (_ >? _) eqn:E2; [lra | apply Qgtb_le in E2; lra].
  - destruct (Jelly.y jelly + Jelly.vy jelly <? -100) eqn:E1.
    + destruct (_ >? _) eqn:E2; [apply Qgtb_gt in E2; lra | lra].
    + apply Qltb_ge in E1.
      destruct (_ >? _) eqn:E2; [lra | apply Qgtb_le in E2; lra].
Qed.

Lemma move_following (canvas : Canvas) (handX handY time : Q) (jelly : Jelly.t) :
  Jelly.state jelly = Jelly.FOLLOWING ->
  let m := move canvas handX handY time jelly in
  Jelly.state m = Jelly.FOLLOWING
  /\ Jelly.x m - handX == 0.92 * (Jelly.x jelly - handX).
Proof.
  intros Hf. cbv zeta. unfold move. rewrite Hf. cbn. split; [reflexivity | lra].
Qed.

End JellyfishMotion.

(** X6: on a canvas of non-negative size, every FREE creature is, after every
    tick, inside the frame enlarged by the margin of 100 on each side. *)
Theorem free_jelly_in_margin `{rt : JSRuntime} (canvas : Canvas)
    (handData : HandData.t) (time : Q) (st : list Jelly.t * bool) (n : nat) :
  (0 <= width canvas)%Z ->
  (0 <= height canvas)%Z ->
  Forall (fun j =>
            Jelly.state j = Jelly.FREE ->
            (-100 <= Jelly.x j /\ Jelly.x j <= num (width canvas) + 100)
            /\ (-100 <= Jelly.y j /\ Jelly.y j <= num (height canvas) + 100))
    (fst (fst (renderJellyfish canvas handData time st n))).
Proof.
  intros Hw Hh. destruct st as [particles wasOpen].
  rewrite renderJellyfish_eq. cbv zeta. cbn [fst snd].
  apply forEachM_Forall. intros a k.
  destruct (updateJelly_move canvas
              (if HandData.isPresent handData
               then HandData.x handData * num (width canvas)
               else num (width canvas) / 2)
              (if HandData.isPresent handData
               then HandData.y handData * num (height canvas)
               else num (height canvas) / 2) time a k)
    as (-> & -> & _ & _ & ->).
  intros Hfree.
  assert (Jelly.state a = Jelly.FREE) as Ha.
  { unfold move in Hfree. destruct (Jelly.state a) eqn:E; [|reflexivity].
    cbn in Hfree. congruence. }
  now apply move_free_box.
Qed.

Lemma free_jelly_in_margin_witness :
  Forall (fun j =>
            Jelly.state j = Jelly.FREE ->
            (-100 <= Jelly.x j /\ Jelly.x j <= num (width sampleCanvas) + 100)
            /\ (-100 <= Jelly.y j /\ Jelly.y j <= num (height sampleCanvas) + 100))
    (fst (fst (@renderJellyfish (constRuntime 0.5) sampleCanvas absentPose
                 1700000000 ([followingJelly; freeJelly], true) 0%nat))).
Proof.
  apply (@free_jelly_in_margin (constRuntime 0.5) sampleCanvas absentPose
           1700000000 ([followingJelly; freeJelly], true) 0%nat);
    simpl; lia.
Defined.

Section JellyfishFollowing.
Context `{rt : JSRuntime}.

(** One tick under an open hand pulls a FOLLOWING creature towards the
    hand. *)
Lemma renderJellyfish_following (canvas : Canvas) (handData : HandData.t)
    (time : Q) (particles : list Jelly.t) (wasOpen : bool) (n i : nat)
    (j : Jelly.t) :
  isOpen handData = true ->
  particles !! i = Some j ->
  Jelly.state j = Jelly.FOLLOWING ->
  exists j',
    fst (fst (renderJellyfish canvas handData time (particles, wasOpen) n)) !! i
    = Some j'
    /\ Jelly.state j' = Jelly.FOLLOWING
    /\ Jelly.x j' - HandData.x handData * num (width canvas)
       == 0.92 * (Jelly.x j - HandData.x handData * num (width canvas)).
Proof.
  intros Ho Hi Hf.
  destruct (renderJellyfish_lookup canvas handData time particles wasOpen n i j
              Hi) as (j1 & k & E & [-> | [Hc _]]); [|congruence].
  rewrite (isOpen_present handData Ho) in E.
  eexists. split; [exact E|].
  destruct (updateJelly_move canvas (HandData.x handData * num (width canvas))
              (HandData.y handData * num (height canvas)) time j k)
    as (-> & _ & _ & _ & ->).
  now apply move_following.
Qed.

End JellyfishFollowing.

(** X7: while the hand stays open at one place, a FOLLOWING creature keeps
    its index and its state and moves horizontally towards the hand without
    passing it: its x stays between the x it had and the x of the hand. *)
Theorem following_approaches_hand `{rt : JSRuntime} (canvas : Canvas)
    (handData : HandData.t) (ticks : list Tick) (st : list Jelly.t * bool)
    (n i : nat) (j : Jelly.t) :
  isOpen handData = true ->
  Forall (fun t => tcanvas t = canvas /\ thandData t = handData) ticks ->
  fst st !! i = Some j ->
  Jelly.state j = Jelly.FOLLOWING ->
  exists j',
    fst (fst (runJellyfish ticks st n)) !! i = Some j'
    /\ Jelly.state j' = Jelly.FOLLOWING
    /\ Qmin (Jelly.x j) (HandData.x handData * num (width canvas))
       <= Jelly.x j'
    /\ Jelly.x j'
       <= Qmax (Jelly.x j) (HandData.x handData * num (width canvas)).
Proof.
  intros Ho Hticks. revert st n j.
  induction Hticks as [|t ticks [Hc Hd] _ IH]; intros [particles wasOpen] n j Hi Hf.
  - exists j. split; [exact Hi|]. split; [exact Hf|].
    split; [apply Q.le_min_l | apply Q.le_max_l].
  - cbn [runJellyfish]. rewrite bind_eq, Hc, Hd.
    destruct (renderJellyfish_following canvas handData (ttime t) particles
                wasOpen n i j Ho Hi Hf) as (j1 & H1 & Hf1 & Hx1).
    set (r := renderJellyfish canvas handData (ttime t) (particles, wasOpen) n)
      in *.
    destruct (IH (fst r) (snd r) j1 H1 Hf1) as (j' & H' & Hf' & Hlo & Hhi).
    exists j'. split; [exact H'|]. split; [exact Hf'|].
    set (hx := HandData.x handData * num (width canvas)) in *.
    destruct (Q.min_spec (Jelly.x j) hx) as [[? Em] | [? Em]];
      destruct (Q.max_spec (Jelly.x j) hx) as [[? EM] | [? EM]];
      destruct (Q.min_spec (Jelly.x j1) hx) as [[? Em1] | [? Em1]];
      destruct (Q.max_spec (Jelly.x j1) hx) as [[? EM1] | [? EM1]];
      rewrite Em, EM; rewrite Em1 in Hlo; rewrite EM1 in Hhi; split; lra.
Qed.

Lemma following_approaches_hand_witness :
  exists j',
    fst (fst (@runJellyfish (constRuntime 0.5)
                (replicate 3 (mkTick sampleCanvas openPose 1700000000))
                ([strayJelly], true) 0%nat)) !! 0%nat = Some j'
    /\ Jelly.state j' = Jelly.FOLLOWING
    /\ Qmin (Jelly.x strayJelly) (HandData.x openPose * num (width sampleCanvas))
       <= Jelly.x j'
    /\ Jelly.x j'
       <= Qmax (Jelly.x strayJelly)
            (HandData.x openPose * num (width sampleCanvas))
    /\ Jelly.x strayJelly < Jelly.x j'
    /\ Jelly.x j' < HandData.x openPose * num (width sampleCanvas).
Proof.
  destruct (@following_approaches_hand (constRuntime 0.5) sampleCanvas openPose
              (replicate 3 (mkTick sampleCanvas openPose 1700000000))
              ([strayJelly], true) 0%nat 0%nat strayJelly)
    as (j' & Hl & Hs & Hlo & Hhi).
  - reflexivity.
  - repeat constructor.
  - reflexivity.
  - reflexivity.
  - exists j'. split; [exact Hl|]. split; [exact Hs|].
    split; [exact Hlo|]. split; [exact Hhi|].
    vm_compute in Hl. injection Hl as <-. split; reflexivity.
Defined.

Section JellyfishBubbles.
Context `{rt : JSRuntime}.

(** The loop over the bubbles moves every bubble and keeps the ones whose
    opacity is still positive. *)
Lemma updateBubbles_eq (time : Q) (jelly : Jelly.t) :
  Jelly.bubbles (updateBubbles time jelly)
  = List.filter (fun b => negb (Bubble.alpha b <=? 0))
      (map (moveBubble time) (Jelly.bubbles jelly)).
Proof.
  unfold updateBubbles. cbn [Jelly.bubbles].
  rewrite <- (app_nil_r (Jelly.bubbles jelly)) at 2.
  rewrite (for_down_splice (moveBubble time) (fun b => Bubble.alpha b <=? 0)).
  - now rewrite app_nil_r.
  - intros i l. unfold updateBubble. destruct (l !! i); reflexivity.
Qed.

Lemma updateJelly_bubbles (canvas : Canvas) (handX handY time : Q)
    (jelly : Jelly.t) (k : nat) :
  let j' := fst (updateJelly canvas handX handY time jelly k) in
  Forall (fun b => 0 < Bubble.alpha b) (Jelly.bubbles j')
  /\ (length (Jelly.bubbles j') <= length (Jelly.bubbles jelly) + 1)%nat.
Proof.
  cbv zeta. rewrite updateJelly_eq, updateBubbles_eq. split.
  - apply Forall_forall. intros b Hb.
    apply list_elem_of_In, List.filter_In in Hb. destruct Hb as [_ Hb].
    apply (proj1 (Qltb_lt 0 (Bubble.alpha b))). exact Hb.
  - etransitivity; [apply List.filter_length_le|]. rewrite length_map.
    destruct (emitBubble_cases (move canvas handX handY time jelly) k)
      as [-> | (b & _ & ->)]; cbn [Jelly.bubbles].
    + unfold move. destruct (Jelly.state jelly); cbn; lia.
    + rewrite length_app. unfold move. destruct (Jelly.state jelly); cbn; lia.
Qed.

End JellyfishBubbles.

(** X8: after a tick no creature carries a bubble whose opacity is zero or
    less, and the tick adds at most one bubble to a creature. *)
Theorem bubbles_after_tick `{rt : JSRuntime} (canvas : Canvas)
    (handData : HandData.t) (time : Q) (st : list Jelly.t * bool) (n : nat) :
  Forall (fun j => Forall (fun b => 0 < Bubble.alpha b) (Jelly.bubbles j))
    (fst (fst (renderJellyfish canvas handData time st n)))
  /\ forall (i : nat) (j : Jelly.t),
      fst st !! i = Some j ->
      exists j',
        fst (fst (renderJellyfish canvas handData time st n)) !! i = Some j'
        /\ (length (Jelly.bubbles j') <= length (Jelly.bubbles j) + 1)%nat.
Proof.
  destruct st as [particles wasOpen]. split.
  - rewrite renderJellyfish_eq. cbv zeta. cbn [fst snd].
    apply forEachM_Forall. intros a k. apply updateJelly_bubbles.
  - intros i j Hi.
    destruct (renderJellyfish_lookup canvas handData time particles wasOpen n
                i j Hi) as (j1 & k & E & Hj1).
    eexists. split; [exact E|].
    etransitivity; [apply updateJelly_bubbles|].
    destruct Hj1 as [-> | (_ & k1 & ->)]; [lia|].
    unfold release. destruct (Jelly.state j); cbn; lia.
Qed.

(** * The release of the creatures *)

Section ReleaseFacts.
Context `{rt : JSRuntime}.





End ReleaseFacts.




(** The two FOLLOWING creatures of the sample are released with the draws at
    positions 2, 3 and 4, 5 of the stream; the FREE one between them draws
    nothing. *)
Example release_draws :
  exists j0 j2,
    fst (@stateManagement stepRuntime absentPose (isOpen absentPose) true
           [followingJelly; freeJelly; followingJelly] 2%nat)
    = [j0; freeJelly; j2]
    /\ Jelly.vx j0 == (0.3 - 0.5) * 6 /\ Jelly.vy j0 == (0.4 - 0.5) * 6
    /\ Jelly.vx j2 == (0.6 - 0.5) * 6 /\ Jelly.vy j2 == (0.7 - 0.5) * 6
    /\ snd (@stateManagement stepRuntime absentPose (isOpen absentPose) true
              [followingJelly; freeJelly; followingJelly] 2%nat) = 6%nat.
Proof.
  eexists _, _. split; [vm_compute; reflexivity|].
  repeat split; vm_compute; reflexivity.
Qed.

